(** * appwrite-function-tools: error normalisation, request validation, router

    A shallow embedding of [src/error.ts], [src/validation.ts] and the
    [Router] class, together with the properties of the specification
    that concern them.

    Modelling conventions.
    - A JavaScript value is a term of [value].  Objects carry an address
      (reference identity), the list of prototypes on their chain (what
      [instanceof] walks), and the data properties that a property read
      resolves, own and inherited alike, in lookup order.  Accessor
      properties and proxies are outside the model: reading a property of
      an object never runs code.
    - A function value carries its identity, its source text and the
      completion of calling it as a method of the object that holds it,
      which is all the sources ever do with one; what else the call does
      is not modelled.  [Error.prototype.toString] alone is computed from
      its receiver, since the sources assign the name of the errors they
      build.  [VFunction] is a function nobody has touched: no parameter,
      the properties and the prototype chain every function has.
      [VFunctionWith] is any other: it carries its chain and its
      properties as an object does.
    - Strings hold the UTF-8 form of JavaScript strings.  A property key
      that starts with the byte 255, which no UTF-8 text contains, stands
      for a symbol; [Symbol.toPrimitive] is the one the sources reach.
    - Numbers are the integral ones.  The text of a safe integer is its
      decimal form; the text of any other is a parameter of the engine.
    - Code runs in the monad [M]: it threads the allocator (the next free
      address) and the log of calls made to the ambient capabilities
      ([res.json], [error], ...), and completes normally or abruptly with
      a thrown value.
    - The router is given twice.  In [Capabilities] the request data
      carry [res], [log] and [error] as the handler receives them, and
      each, like the recognizer, may raise.  Outside it they are the
      recording ones of the runtime: a call to one is recorded and
      returns; [handle_recorded] shows this is the same router.
    - An awaited promise is modelled by its settlement: fulfilled is a
      normal completion, rejected an abrupt one.
    - The route-recognizer package is a parameter of the router, taken by
      the signatures it declares. *)

From Stdlib Require Import String Ascii List ZArith Bool Lia DecimalString.
Import ListNotations.
Local Open Scope string_scope.
Local Open Scope Z_scope.

(** ** Values *)

(** Identity of a function object.  The sources compare functions by
    identity only with [Object.prototype.toString]. *)
Inductive funId : Type :=
| ObjectPrototypeToString
| ErrorPrototypeToString
| UserFunction (n : nat).

(** Prototype objects that can sit on a prototype chain. *)
Inductive protoId : Type :=
| ObjectPrototype
| ErrorPrototype
| TypeErrorPrototype
| InvalidRequestErrorPrototype
| FunctionPrototype
| OtherPrototype (n : nat).

Local Unset Elimination Schemes.
Inductive value : Type :=
| VUndefined
| VNull
| VBool (b : bool)
| VNumber (n : Z)
| VBigInt (n : Z)
| VString (s : string)
| VSymbol (description : string)
| VFunction (id : funId) (name : string) (source : string) (call : callResult)
| VObject (addr : nat) (chain : list protoId)
          (props : list (string * value)) (json : jsonResult)
| VFunctionWith (id : funId) (source : string) (call : callResult)
                (chain : list protoId) (props : list (string * value))
(** Completion of calling a function as a method of its holder. *)
with callResult : Type :=
| Returns (v : value)
| Throws (v : value)
(** Completion of [JSON.stringify] on an object: a text, [undefined], or a
    throw (cyclic structure, a BigInt inside, a throwing [toJSON]). *)
with jsonResult : Type :=
| JsonText (s : string)
| JsonUndefined
| JsonThrows (v : value).
Local Set Elimination Schemes.

Definition protoId_eqb (a b : protoId) : bool :=
  match a, b with
  | ObjectPrototype, ObjectPrototype => true
  | ErrorPrototype, ErrorPrototype => true
  | TypeErrorPrototype, TypeErrorPrototype => true
  | InvalidRequestErrorPrototype, InvalidRequestErrorPrototype => true
  | FunctionPrototype, FunctionPrototype => true
  | OtherPrototype n, OtherPrototype m => Nat.eqb n m
  | _, _ => false
  end.

(** ** The monad of JavaScript code *)

(** Calls to the ambient capabilities of the function runtime.  The body
    of [res.json] is an object literal, given by its fields. *)
Inductive event : Type :=
| ResEmpty
| ResJson (body : list (string * value)) (statusCode : Z)
| ResText (body : string) (statusCode : Z)
| ResRedirect (url : string) (statusCode : Z)
| ResBinary (body : list Z) (statusCode : Z)
| CallLog (message : value)
| CallError (message : value).

Record world : Type := mkWorld {
  next : nat;            (* next free object address *)
  calls : list event     (* capability calls so far, oldest first *)
}.

Inductive outcome (A : Type) : Type :=
| Normal (a : A)
| Throw (v : value).
Arguments Normal {A} a.
Arguments Throw {A} v.

Definition M (A : Type) : Type := world -> outcome A * world.

Definition ret {A} (a : A) : M A := fun w => (Normal a, w).
Definition throw {A} (v : value) : M A := fun w => (Throw v, w).
Definition bind {A B} (c : M A) (k : A -> M B) : M B :=
  fun w => match c w with
           | (Normal a, w') => k a w'
           | (Throw v, w') => (Throw v, w')
           end.
(** [try { c } catch (err) { h err }] *)
Definition try_catch {A} (c : M A) (h : value -> M A) : M A :=
  fun w => match c w with
           | (Normal a, w') => (Normal a, w')
           | (Throw v, w') => h v w'
           end.
Definition alloc : M nat :=
  fun w => (Normal (next w), mkWorld (S (next w)) (calls w)).
Definition emit (e : event) : M unit :=
  fun w => (Normal tt, mkWorld (next w) (calls w ++ [e])).

Notation "x <- c ;; k" := (bind c (fun x => k))
  (at level 61, c at next level, right associativity).
Notation "c ;;; k" := (bind c (fun _ => k))
  (at level 61, right associativity).

(** ** Primitive operations of the language *)

Definition typeof (v : value) : string :=
  match v with
  | VUndefined => "undefined"
  | VNull => "object"
  | VBool _ => "boolean"
  | VNumber _ => "number"
  | VBigInt _ => "bigint"
  | VString _ => "string"
  | VSymbol _ => "symbol"
  | VFunction _ _ _ _ | VFunctionWith _ _ _ _ _ => "function"
  | VObject _ _ _ _ => "object"
  end.

Definition is_string (v : value) : bool :=
  match v with VString _ => true | _ => false end.

(** ToBoolean *)
Definition truthy (v : value) : bool :=
  match v with
  | VUndefined | VNull => false
  | VBool b => b
  | VNumber n | VBigInt n => negb (Z.eqb n 0)
  | VString s => negb (String.eqb s "")
  | VSymbol _ | VFunction _ _ _ _ | VObject _ _ _ _
  | VFunctionWith _ _ _ _ _ => true
  end.

Fixpoint lookup (key : string) (ps : list (string * value)) : option value :=
  match ps with
  | [] => None
  | (k, v) :: rest => if String.eqb k key then Some v else lookup key rest
  end.

(** [key in obj], for an object with properties [ps]. *)
Definition has_property (key : string) (ps : list (string * value)) : bool :=
  match lookup key ps with Some _ => true | None => false end.

(** [obj[key]], for an object with properties [ps]. *)
Definition get_property (key : string) (ps : list (string * value)) : value :=
  match lookup key ps with Some v => v | None => VUndefined end.

Definition decimal (n : Z) : string := NilZero.string_of_int (Z.to_int n).

(** The integers that a number holds exactly, with their neighbours:
    up to 2^53 - 1 either side of zero. *)
Definition safe_integer (n : Z) : bool := Z.abs n <=? 9007199254740991.

(** The key of the well-known symbol [Symbol.toPrimitive]. *)
Definition Symbol_toPrimitive : string :=
  String "255"%char "Symbol.toPrimitive".


(** Primitive values: everything but functions and objects. *)
Definition is_primitive (v : value) : bool :=
  match v with
  | VFunction _ _ _ _ | VObject _ _ _ _ | VFunctionWith _ _ _ _ _ => false
  | _ => true
  end.

(** The prototype chain of a value; a primitive value has none to walk. *)
Definition chain_of (x : value) : list protoId :=
  match x with
  | VObject _ chain _ _ | VFunctionWith _ _ _ chain _ => chain
  | VFunction _ _ _ _ => [FunctionPrototype; ObjectPrototype]
  | _ => []
  end.

(** [x instanceof C], where [p] is [C.prototype]. *)
Definition instanceof (x : value) (p : protoId) : bool :=
  existsb (protoId_eqb p) (chain_of x).

(** The identity and the recorded completion of a function. *)
Definition as_function (f : value) : option (funId * callResult) :=
  match f with
  | VFunction id _ _ c | VFunctionWith id _ c _ _ => Some (id, c)
  | _ => None
  end.

Definition native_source (name : string) : string :=
  "function " ++ name ++ "() { [native code] }".

(** [Object.prototype.toString], as an ordinary object holds it: the tag
    of such an object is 'Object'. *)
Definition Object_prototype_toString : value :=
  VFunction ObjectPrototypeToString "toString" (native_source "toString")
            (Returns (VString "[object Object]")).

(** [Function.prototype.toString], as a function with the source text
    [source] holds it. *)
Definition Function_prototype_toString (source : string) : value :=
  VFunction (UserFunction 5) "toString" (native_source "toString")
            (Returns (VString source)).

Definition Error_prototype_toString : value :=
  VFunction ErrorPrototypeToString "toString" (native_source "toString")
            (Returns VUndefined).

(** A built-in constructor of one parameter, by what the sources can
    observe of it. *)
Definition constructor_function (n : nat) (name : string) : value :=
  VFunctionWith (UserFunction n) (native_source name) (Returns VUndefined)
                [FunctionPrototype; ObjectPrototype]
                [("name", VString name);
                 ("length", VNumber 1);
                 ("toString", Function_prototype_toString (native_source name))].

Definition Object_constructor : value := constructor_function 0 "Object".
Definition Error_constructor : value := constructor_function 1 "Error".
Definition TypeError_constructor : value := constructor_function 2 "TypeError".
Definition InvalidRequestError_constructor : value :=
  VFunctionWith (UserFunction 3) "class InvalidRequestError extends Error"
                (Returns VUndefined) [FunctionPrototype; ObjectPrototype]
                [("name", VString "InvalidRequestError");
                 ("length", VNumber 1);
                 ("toString",
                  Function_prototype_toString
                    "class InvalidRequestError extends Error")].
Definition Function_constructor : value := constructor_function 4 "Function".

(** The properties [asError] and [isError] can read off a function nobody
    has touched; a function in full carries its properties with it. *)
Definition Function_props (name source : string) : list (string * value) :=
  [("name", VString name);
   ("length", VNumber 0);
   ("constructor", Function_constructor);
   ("toString", Function_prototype_toString source)].

(** What an ordinary object inherits from [Object.prototype]. *)
Definition Object_prototype_props : list (string * value) :=
  [("constructor", Object_constructor);
   ("toString", Object_prototype_toString)].

(** [obj.key = v] on the property list of [obj]. *)
Fixpoint assign (key : string) (v : value) (ps : list (string * value))
  : list (string * value) :=
  match ps with
  | [] => [(key, v)]
  | (k, x) :: rest =>
      if String.eqb k key then (k, v) :: rest else (k, x) :: assign key v rest
  end.

Section Engine.

(** The text the engine captures in the [stack] property of the error
    object it allocates at a given address. *)
Variable stack_trace : nat -> string.

(** The text the engine gives a number that is no safe integer. *)
Variable number_text : Z -> string.

(** Number::toString *)
Definition Number_toString (n : Z) : string :=
  if safe_integer n then decimal n else number_text n.

(** An error object of class [ctor], with prototype chain [chain]: its own
    [message] and [stack], and what it inherits. *)
Definition error_object (a : nat) (chain : list protoId) (ctor : value)
           (name message : string) : value :=
  VObject a chain
          [("message", VString message);
           ("stack", VString (stack_trace a));
           ("name", VString name);
           ("constructor", ctor);
           ("toString", Error_prototype_toString)]
          (JsonText "{}").

(** The engine raises a [TypeError]. *)
Definition throw_TypeError {A} (message : string) : M A :=
  a <- alloc ;;
  throw (error_object a [TypeErrorPrototype; ErrorPrototype; ObjectPrototype]
                      TypeError_constructor "TypeError" message).

(** ToString on a primitive value. *)
Definition primitive_to_string (v : value) : M string :=
  match v with
  | VUndefined => ret "undefined"
  | VNull => ret "null"
  | VBool true => ret "true"
  | VBool false => ret "false"
  | VNumber n => ret (Number_toString n)
  | VBigInt n => ret (decimal n)
  | VString s => ret s
  | VSymbol _ => throw_TypeError "Cannot convert a Symbol value to a string"
  | _ => throw_TypeError "Cannot convert object to primitive value"
  end.

(** [Error.prototype.toString] once the name and the message are strings. *)
Definition error_text (name message : string) : string :=
  if String.eqb name "" then message
  else if String.eqb message "" then name
  else name ++ ": " ++ message.

(** ToString.  On an object or a function with properties of its own it
    is ToPrimitive with hint string: the [Symbol.toPrimitive] method if
    there is one, else [toString] then [valueOf], called if callable, the
    first result that is not an object being converted.
    [Error.prototype.toString] converts the [name] and the [message] of
    its receiver in turn. *)
Fixpoint to_string (v : value) : M string :=
  match v with
  | VFunction _ _ source _ => ret source
  | VObject _ _ ps _ | VFunctionWith _ _ _ _ ps =>
      let field (key default : string) : M string :=
        (fix find (l : list (string * value)) : M string :=
           match l with
           | [] => ret default
           | (k, x) :: rest =>
               if String.eqb k key
               then match x with VUndefined => ret default | _ => to_string x end
               else find rest
           end) ps in
      let call (f : value) : option (M value) :=
        match as_function f with
        | Some (ErrorPrototypeToString, _) =>
            Some (n <- field "name" "Error" ;;
                  m <- field "message" "" ;;
                  ret (VString (error_text n m)))
        | Some (_, Returns r) => Some (ret r)
        | Some (_, Throws e) => Some (throw e)
        | None => None
        end in
      let try_method (key : string) (otherwise : M string) : M string :=
        match call (get_property key ps) with
        | Some c => r <- c ;;
                    if is_primitive r then primitive_to_string r else otherwise
        | None => otherwise
        end in
      match get_property Symbol_toPrimitive ps with
      | VUndefined | VNull =>
          try_method "toString"
            (try_method "valueOf"
               (throw_TypeError "Cannot convert object to primitive value"))
      | _ =>
          try_method Symbol_toPrimitive
            (throw_TypeError "Cannot convert object to primitive value")
      end
  | _ => primitive_to_string v
  end.

(** [String(v)]: as ToString, but a symbol is described. *)
Definition String_ (v : value) : M string :=
  match v with
  | VSymbol d => ret ("Symbol(" ++ d ++ ")")
  | _ => to_string v
  end.

(** [Error.prototype.toString] on a receiver with properties [ps]. *)
Definition Error_toString (ps : list (string * value)) : M value :=
  n <- match get_property "name" ps with
       | VUndefined => ret "Error"
       | x => to_string x
       end ;;
  m <- match get_property "message" ps with
       | VUndefined => ret ""
       | x => to_string x
       end ;;
  ret (VString (error_text n m)).

(** [obj.key()] where [f] is the value of [obj.key] and [ps] the
    properties of [obj]. *)
Definition call_method (key : string) (f : value) (ps : list (string * value))
  : M value :=
  match as_function f with
  | Some (ErrorPrototypeToString, _) => Error_toString ps
  | Some (_, Returns r) => ret r
  | Some (_, Throws e) => throw e
  | None => throw_TypeError ("obj." ++ key ++ " is not a function")
  end.

Definition callable (f : value) : bool :=
  match as_function f with Some _ => true | None => false end.

(** One step of OrdinaryToPrimitive on an object with properties [ps]. *)
Definition try_method (key : string) (ps : list (string * value))
           (otherwise : M string) : M string :=
  if callable (get_property key ps)
  then r <- call_method key (get_property key ps) ps ;;
       if is_primitive r then primitive_to_string r else otherwise
  else otherwise.

(** [c.name], for any value [c]. *)
Definition read_name (c : value) : M value :=
  match c with
  | VUndefined =>
      throw_TypeError "Cannot read properties of undefined (reading 'name')"
  | VNull =>
      throw_TypeError "Cannot read properties of null (reading 'name')"
  | VFunction _ name _ _ => ret (VString name)
  | VObject _ _ ps _ | VFunctionWith _ _ _ _ ps => ret (get_property "name" ps)
  | _ => ret VUndefined
  end.

(** [new Error(message)] *)
Definition new_Error (message : value) : M value :=
  a <- alloc ;;
  m <- match message with
       | VUndefined => ret ""
       | _ => to_string message
       end ;;
  ret (error_object a [ErrorPrototype; ObjectPrototype] Error_constructor
                    "Error" m).

(** [JSON.stringify(obj)], from the completion the object records. *)
Definition JSON_stringify (j : jsonResult) : M value :=
  match j with
  | JsonText s => ret (VString s)
  | JsonUndefined => ret VUndefined
  | JsonThrows e => throw e
  end.

(** ** src/error.ts *)

(** The properties of an object or a function, and the JSON completion of
    an object; the sources read neither off a primitive value. *)
Definition props_of (v : value) : list (string * value) :=
  match v with
  | VObject _ _ ps _ | VFunctionWith _ _ _ _ ps => ps
  | VFunction _ name source _ => Function_props name source
  | _ => []
  end.

Definition json_of (v : value) : jsonResult :=
  match v with VObject _ _ _ j => j | _ => JsonUndefined end.

Definition get (obj : value) (key : string) : value :=
  get_property key (props_of obj).

Definition loosely_null (v : value) : bool :=
  match v with VUndefined | VNull => true | _ => false end.

Definition is_Object_prototype_toString (v : value) : bool :=
  match as_function v with
  | Some (ObjectPrototypeToString, _) => true
  | _ => false
  end.

Definition isObject (value : value) : bool :=
  String.eqb (typeof value) "object" && negb (loosely_null value).

Definition getObjectMessage (obj : value) : M value :=
  if String.eqb (typeof (get obj "message")) "string"
  then ret (get obj "message")
  else if negb (is_Object_prototype_toString (get obj "toString"))
  then call_method "toString" (get obj "toString") (props_of obj)
  else try_catch (JSON_stringify (json_of obj))
                 (fun _ => s <- String_ obj ;; ret (VString s)).

Definition isError (err : value) : bool :=
  isObject err &&
  String.eqb (typeof (get err "name")) "string" &&
  String.eqb (typeof (get err "message")) "string" &&
  (negb (has_property "stack" (props_of err))
   || String.eqb (typeof (get err "stack")) "string").

(** [obj.key = v], for an object [obj]. *)
Definition set (obj : value) (key : string) (v : value) : value :=
  match obj with
  | VObject a chain ps j => VObject a chain (assign key v ps) j
  | VFunctionWith id source c chain ps =>
      VFunctionWith id source c chain (assign key v ps)
  | VFunction id name source c =>
      VFunctionWith id source c [FunctionPrototype; ObjectPrototype]
                    (assign key v (Function_props name source))
  | _ => obj
  end.

Definition asError (err : value) : M value :=
  if isError err then ret err
  else
    message <- (if isObject err then getObjectMessage err
                else s <- String_ err ;; ret (VString s)) ;;
    error <- new_Error message ;;
    name <- (if isObject err
             then n <- read_name (get err "constructor") ;;
                  ret (if truthy n then n else VString (typeof err))
             else ret (VString (typeof err))) ;;
    ret (set error "name" name).

(** ** src/validation.ts *)

(** [new InvalidRequestError(message)]: the [Error] constructor runs on an
    object whose chain starts at [InvalidRequestError.prototype], then
    [this.name] is assigned. *)
Definition new_InvalidRequestError (message : value) : M value :=
  a <- alloc ;;
  m <- match message with
       | VUndefined => ret ""
       | _ => to_string message
       end ;;
  ret (set (error_object a [InvalidRequestErrorPrototype; ErrorPrototype;
                            ObjectPrototype]
                         InvalidRequestError_constructor "Error" m)
           "name" (VString "InvalidRequestError")).

(** [key in obj]: the engine raises a [TypeError] when [obj] is a
    primitive value. *)
Definition in_operator (key : string) (obj : value) : M bool :=
  if is_primitive obj
  then throw_TypeError ("Cannot use 'in' operator to search for '" ++ key
                        ++ "' in " ++ match obj with
                                      | VString s => s
                                      | VNumber n => Number_toString n
                                      | VBigInt n => decimal n
                                      | VBool true => "true"
                                      | VBool false => "false"
                                      | VNull => "null"
                                      | VSymbol d => "Symbol(" ++ d ++ ")"
                                      | _ => "undefined"
                                      end)
  else ret (has_property key (props_of obj)).

(** The loop of [throwIfMissing]: [missing] after the keys are visited. *)
Fixpoint collect_missing (obj : value) (keys : list string)
         (missing : list string) : M (list string) :=
  match keys with
  | [] => ret missing
  | key :: rest =>
      present <- in_operator key obj ;;
      collect_missing obj rest
        (if negb present || negb (truthy (get obj key))
         then (missing ++ [key])%list else missing)
  end.

Definition throwIfMissing (obj : value) (keys : list string) : M unit :=
  missing <- collect_missing obj keys [] ;;
  if (0 <? Z.of_nat (List.length missing))
  then e <- new_InvalidRequestError
              (VString ("Missing required fields: "
                        ++ String.concat ", " missing)) ;;
       throw e
  else ret tt.

(** The request of the function runtime.  [bodyJson] is an accessor of the
    runtime that parses the body when read, so reading it is a
    computation. *)
Record Request : Type := mkRequest {
  bodyText : string;
  bodyJson : M value;
  bodyBinary : list Z;
  headers : list (string * string);
  scheme : string;
  method : string;
  url : string;
  host : string;
  port : string;
  path : string;
  queryString : string;
  query : list (string * string)
}.

Definition getData {T : Type} (req : Request) (validator : value -> M T)
  : M T :=
  body <- try_catch (bodyJson req)
            (fun _ => e <- new_InvalidRequestError
                             (VString "Invalid request body") ;;
                      throw e) ;;
  try_catch (validator body)
    (fun err => n <- asError err ;;
                e <- new_InvalidRequestError (get n "message") ;;
                throw e).

End Engine.

(** ** What normalisation is expected to give *)

Section Expected.

Variable number_text : Z -> string.

(** [String(v)] for a primitive value, and for a function nobody has
    touched. *)
Definition coerced (v : value) : string :=
  match v with
  | VUndefined => "undefined"
  | VNull => "null"
  | VBool true => "true"
  | VBool false => "false"
  | VNumber n => Number_toString number_text n
  | VBigInt n => decimal n
  | VString s => s
  | VSymbol d => "Symbol(" ++ d ++ ")"
  | VFunction _ _ source _ | VFunctionWith _ source _ _ _ => source
  | VObject _ _ _ _ => "[object Object]"
  end.

(** The message of an object whose message can be had without running
    code that may fail: a string [message]; else what a [toString] of its
    own returns, converted, when that is neither a symbol nor an object;
    else, under [Object.prototype.toString], the JSON text (nothing when
    JSON gives [undefined]) or, when JSON throws, what
    [Object.prototype.toString] gives an object with no
    [Symbol.toPrimitive]. *)
Definition plain_message (obj : value) : option string :=
  match get obj "message" with
  | VString s => Some s
  | _ =>
      match as_function (get obj "toString") with
      | Some (ObjectPrototypeToString, c) =>
          match json_of obj with
          | JsonText s => Some s
          | JsonUndefined => Some ""
          | JsonThrows _ =>
              match get obj Symbol_toPrimitive, c with
              | VUndefined, Returns (VString tagged) => Some tagged
              | _, _ => None
              end
          end
      | Some (UserFunction _, Returns r) =>
          match r with
          | VUndefined => Some ""
          | VSymbol _ | VObject _ _ _ _ | VFunctionWith _ _ _ _ _ => None
          | _ => Some (coerced r)
          end
      | _ => None
      end
  end.

(** The [name] of the constructor of an object, when it has one. *)
Definition constructor_name (obj : value) : option value :=
  match get obj "constructor" with
  | VUndefined | VNull => None
  | VFunction _ name _ _ => Some (VString name)
  | VObject _ _ ps _ | VFunctionWith _ _ _ _ ps => Some (get_property "name" ps)
  | _ => Some VUndefined
  end.

(** Values [asError] is shown to normalise whatever else holds: the
    primitive ones, the error-like ones, and the objects with a plain
    message and a constructor. *)
Definition normalizable (err : value) : bool :=
  is_primitive err || isError err ||
  (isObject err &&
   match plain_message err, constructor_name err with
   | Some _, Some _ => true
   | _, _ => false
   end).

(** The message and the name of the error [asError] builds for a value
    that is not error-like. *)
Definition expected_message (err : value) : string :=
  if isObject err
  then match plain_message err with Some s => s | None => "" end
  else coerced err.

Definition expected_name (err : value) : value :=
  if isObject err
  then match constructor_name err with
       | Some n => if truthy n then n else VString (typeof err)
       | None => VString (typeof err)
       end
  else VString (typeof err).

End Expected.

(** The error [asError] builds at address [a]: [new Error(message)], then
    [error.name = name]. *)
Definition normalized_error (stack_trace : nat -> string) (a : nat)
           (message : string) (name : value) : value :=
  set (error_object stack_trace a [ErrorPrototype; ObjectPrototype]
                    Error_constructor "Error" message)
      "name" name.

(** The error [new InvalidRequestError(message)] builds at address [a]. *)
Definition invalid_request_error (stack_trace : nat -> string) (a : nat)
           (message : string) : value :=
  set (error_object stack_trace a
                    [InvalidRequestErrorPrototype; ErrorPrototype;
                     ObjectPrototype]
                    InvalidRequestError_constructor "Error" message)
      "name" (VString "InvalidRequestError").

(** The world after one allocation. *)
Definition allocated (w : world) : world := mkWorld (S (next w)) (calls w).

(** Normalisation as the specification words it: [asError] returns, the
    message of the result is a string, and its name is the name of the
    constructor of an object, the type tag of another value. *)
Definition normalizes_by_constructor (stack_trace : nat -> string)
           (number_text : Z -> string) (err : value) (w : world) : Prop :=
  exists e w1,
    asError stack_trace number_text err w = (Normal e, w1) /\
    is_string (get e "message") = true /\
    if isObject err
    then exists w2, read_name stack_trace (get err "constructor") w
                    = (Normal (get e "name"), w2)
    else get e "name" = VString (typeof err).

(** A key is missing from an object when it is absent, or present with a
    falsy value. *)
Definition is_missing (obj : value) (key : string) : bool :=
  match lookup key (props_of obj) with
  | None => true
  | Some v => negb (truthy v)
  end.

(** Whether [text] occurs in [s]. *)
Fixpoint contains (text s : string) : bool :=
  String.prefix text s ||
  match s with
  | EmptyString => false
  | String _ rest => contains text rest
  end.

(** ** The router *)

Section Router.

(** The global context shared between the main script and the handlers. *)
Variable Context : Type.

(** [RouteHandlerDef]: the [res], [log] and [error] capabilities are the
    ambient ones of [M]; each call to one is recorded in [calls] and
    returns. *)
Record RouteHandlerDef : Type := mkRouteHandlerDef {
  req : Request;
  context : Context
}.

Record RouteHandlerParams : Type := mkRouteHandlerParams {
  def : RouteHandlerDef;
  params : list (string * value)
}.

(** An awaited handler: its effects, then fulfilment or rejection. *)
Definition RouteHandler : Type := RouteHandlerParams -> M unit.

Record RouteDef : Type := mkRouteDef {
  route_path : string;
  route_handler : RouteHandler
}.

(** One entry of the result of [recognize]. *)
Record RecognizeResult : Type := mkRecognizeResult {
  result_handler : RouteHandler;
  result_params : list (string * value);
  isDynamic : bool
}.

(** The route-recognizer package, by the interface the router uses:
    [new RouteRecognizer()], [add(routes)] and [recognize(path)], which
    answers [undefined] or an array of results. *)
Variable RouteRecognizer : Type.
Variable new_RouteRecognizer : RouteRecognizer.
Variable add : RouteRecognizer -> list RouteDef -> RouteRecognizer.
Variable recognize : RouteRecognizer -> string -> option (list RecognizeResult).

Record Router : Type := mkRouter {
  recognizer : RouteRecognizer
}.

(** The constructor. *)
Definition new_Router (routes : list RouteDef) : Router :=
  mkRouter
    (fold_left
       (fun r route =>
          add r [mkRouteDef (route_path route) (route_handler route)])
       routes new_RouteRecognizer).

Record MatchResult : Type := mkMatchResult {
  handler : option RouteHandler;
  match_params : list (string * value)
}.

Definition match_ (this : Router) (req : Request) : MatchResult :=
  let results := recognize (recognizer this) (path req) in
  match results with
  | Some (r0 :: _) => mkMatchResult (Some (result_handler r0)) (result_params r0)
  | _ => mkMatchResult None []
  end.

(** A path matches no registered pattern when the recognizer answers
    [undefined], or an array with no first element. *)
Definition no_match (this : Router) (p : string) : Prop :=
  recognize (recognizer this) p = None \/
  recognize (recognizer this) p = Some [].

Definition handle (this : Router) (data : RouteHandlerDef) : M unit :=
  let m := match_ this (req data) in
  match handler m with
  | None => emit (ResJson [("error", VString "Not Found")] 404)
  | Some handler =>
      try_catch
        (handler (mkRouteHandlerParams data (match_params m)))
        (fun err =>
           emit (CallError err) ;;;
           if instanceof err InvalidRequestErrorPrototype
           then emit (ResJson [("error", get err "message")] 400)
           else emit (ResJson [("error", VString "Internal Server Error")] 500))
  end.

(** The four ways a dispatch ends, with the world each leaves behind. *)
Inductive dispatch : Type :=
| NotFound
| HandlerCompleted
| ClientError
| ServerError.

Inductive dispatched (this : Router) (data : RouteHandlerDef) (w : world)
  : dispatch -> world -> Prop :=
| dispatched_not_found :
    handler (match_ this (req data)) = None ->
    dispatched this data w NotFound
      (mkWorld (next w)
               (calls w ++ [ResJson [("error", VString "Not Found")] 404]))
| dispatched_completed h w1 :
    handler (match_ this (req data)) = Some h ->
    h (mkRouteHandlerParams data (match_params (match_ this (req data)))) w
    = (Normal tt, w1) ->
    dispatched this data w HandlerCompleted w1
| dispatched_client_error h err w1 :
    handler (match_ this (req data)) = Some h ->
    h (mkRouteHandlerParams data (match_params (match_ this (req data)))) w
    = (Throw err, w1) ->
    instanceof err InvalidRequestErrorPrototype = true ->
    dispatched this data w ClientError
      (mkWorld (next w1)
               (calls w1 ++ [CallError err;
                             ResJson [("error", get err "message")] 400]))
| dispatched_server_error h err w1 :
    handler (match_ this (req data)) = Some h ->
    h (mkRouteHandlerParams data (match_params (match_ this (req data)))) w
    = (Throw err, w1) ->
    instanceof err InvalidRequestErrorPrototype = false ->
    dispatched this data w ServerError
      (mkWorld (next w1)
               (calls w1 ++ [CallError err;
                             ResJson [("error", VString "Internal Server Error")]
                                     500])).

End Router.

Arguments mkRouteHandlerDef {Context} req context.
Arguments mkRouteHandlerParams {Context} def params.
Arguments mkRouteDef {Context} route_path route_handler.
Arguments mkRecognizeResult {Context} result_handler result_params isDynamic.
Arguments req {Context} r.
Arguments route_path {Context} r.
Arguments route_handler {Context} r.
Arguments result_handler {Context} r.
Arguments result_params {Context} r.
Arguments mkRouter {RouteRecognizer} recognizer.
Arguments recognizer {RouteRecognizer} r.
Arguments new_Router {Context RouteRecognizer} new_RouteRecognizer add routes.
Arguments handler {Context} m.
Arguments match_params {Context} m.
Arguments match_ {Context RouteRecognizer} recognize this req.
Arguments handle {Context RouteRecognizer} recognize this data w.
Arguments no_match {Context RouteRecognizer} recognize this p.
Arguments dispatched {Context RouteRecognizer} recognize this data w _ _.

(** ** The router, with the capabilities it is handed *)

Module Capabilities.

Section Router.

Variable Context : Type.

(** The response object of the runtime. *)
Record Response : Type := mkResponse {
  empty : M unit;
  json : list (string * value) -> Z -> M unit;
  binary : list Z -> Z -> M unit;
  text : string -> Z -> M unit;
  redirect : string -> Z -> M unit
}.

Record RouteHandlerDef : Type := mkRouteHandlerDef {
  req : Request;
  res : Response;
  context : Context;
  log : value -> M unit;
  error : value -> M unit
}.

Record RouteHandlerParams : Type := mkRouteHandlerParams {
  def : RouteHandlerDef;
  params : list (string * value)
}.

Definition RouteHandler : Type := RouteHandlerParams -> M unit.

Record RecognizeResult : Type := mkRecognizeResult {
  result_handler : RouteHandler;
  result_params : list (string * value);
  isDynamic : bool
}.

Variable RouteRecognizer : Type.
Variable recognize :
  RouteRecognizer -> string -> M (option (list RecognizeResult)).

Record MatchResult : Type := mkMatchResult {
  handler : option RouteHandler;
  match_params : list (string * value)
}.

Definition match_ (this : Router RouteRecognizer) (req : Request)
  : M MatchResult :=
  results <- recognize (recognizer this) (path req) ;;
  ret match results with
      | Some (r0 :: _) =>
          mkMatchResult (Some (result_handler r0)) (result_params r0)
      | _ => mkMatchResult None []
      end.

Definition handle (this : Router RouteRecognizer) (data : RouteHandlerDef)
  : M unit :=
  m <- match_ this (req data) ;;
  match handler m with
  | None => json (res data) [("error", VString "Not Found")] 404
  | Some handler =>
      try_catch
        (handler (mkRouteHandlerParams data (match_params m)))
        (fun err =>
           error data err ;;;
           if instanceof err InvalidRequestErrorPrototype
           then json (res data) [("error", get err "message")] 400
           else json (res data)
                     [("error", VString "Internal Server Error")] 500)
  end.

(** The four ways a dispatch ends when nothing but the handler raises. *)
Inductive dispatched (this : Router RouteRecognizer) (data : RouteHandlerDef)
          (w : world) : dispatch -> world -> Prop :=
| dispatched_not_found m w0 w1 :
    match_ this (req data) w = (Normal m, w0) ->
    handler m = None ->
    json (res data) [("error", VString "Not Found")] 404 w0 = (Normal tt, w1) ->
    dispatched this data w NotFound w1
| dispatched_completed m w0 h w1 :
    match_ this (req data) w = (Normal m, w0) ->
    handler m = Some h ->
    h (mkRouteHandlerParams data (match_params m)) w0 = (Normal tt, w1) ->
    dispatched this data w HandlerCompleted w1
| dispatched_client_error m w0 h err w1 w2 w3 :
    match_ this (req data) w = (Normal m, w0) ->
    handler m = Some h ->
    h (mkRouteHandlerParams data (match_params m)) w0 = (Throw err, w1) ->
    instanceof err InvalidRequestErrorPrototype = true ->
    error data err w1 = (Normal tt, w2) ->
    json (res data) [("error", get err "message")] 400 w2 = (Normal tt, w3) ->
    dispatched this data w ClientError w3
| dispatched_server_error m w0 h err w1 w2 w3 :
    match_ this (req data) w = (Normal m, w0) ->
    handler m = Some h ->
    h (mkRouteHandlerParams data (match_params m)) w0 = (Throw err, w1) ->
    instanceof err InvalidRequestErrorPrototype = false ->
    error data err w1 = (Normal tt, w2) ->
    json (res data) [("error", VString "Internal Server Error")] 500 w2
    = (Normal tt, w3) ->
    dispatched this data w ServerError w3.

End Router.

Arguments mkRouteHandlerDef {Context} req res context log error.
Arguments mkRouteHandlerParams {Context} def params.
Arguments mkRecognizeResult {Context} result_handler result_params isDynamic.
Arguments req {Context} r.
Arguments res {Context} r.
Arguments context {Context} r.
Arguments log {Context} r.
Arguments error {Context} r.
Arguments def {Context} r.
Arguments params {Context} r.
Arguments result_handler {Context} r.
Arguments result_params {Context} r.
Arguments isDynamic {Context} r.
Arguments handler {Context} m.
Arguments match_params {Context} m.
Arguments match_ {Context RouteRecognizer} recognize this req.
Arguments handle {Context RouteRecognizer} recognize this data.
Arguments dispatched {Context RouteRecognizer} recognize this data w _ _.

(** The capabilities of the runtime that record each call and return. *)
Definition recording : Response :=
  mkResponse (emit ResEmpty)
             (fun body status => emit (ResJson body status))
             (fun body status => emit (ResBinary body status))
             (fun body status => emit (ResText body status))
             (fun url status => emit (ResRedirect url status)).

End Capabilities.

(** The request data of [handle] with the recording capabilities put
    back, and a handler of [handle] as one that overlooks them. *)
Definition with_capabilities {Context : Type} (data : RouteHandlerDef Context)
  : Capabilities.RouteHandlerDef Context :=
  Capabilities.mkRouteHandlerDef
    (req data) Capabilities.recording (context Context data)
    (fun message => emit (CallLog message))
    (fun message => emit (CallError message)).

Definition without_capabilities {Context : Type}
           (p : Capabilities.RouteHandlerParams Context)
  : RouteHandlerParams Context :=
  mkRouteHandlerParams
    (mkRouteHandlerDef (Capabilities.req (Capabilities.def p))
                       (Capabilities.context (Capabilities.def p)))
    (Capabilities.params p).

Definition with_capabilities_result {Context : Type}
           (r : RecognizeResult Context)
  : Capabilities.RecognizeResult Context :=
  Capabilities.mkRecognizeResult
    (fun p => result_handler r (without_capabilities p))
    (result_params r) (isDynamic Context r).

(** ** Fixtures: a recognizer of literal paths, handlers, requests *)

Module Fixtures.

(** A stand-in for the recognizer, for routes whose paths are literal and
    requests whose paths need no decoding.  It keeps the routes registered
    so far; on [recognize] it drops one trailing slash of the request and
    answers one result, the route registered last on that path, or
    [undefined] when there is none. *)
Definition LiteralRecognizer : Type := list (RouteDef unit).

Definition literal_add (r : LiteralRecognizer) (routes : list (RouteDef unit))
  : LiteralRecognizer := (r ++ routes)%list.

Definition drop_trailing_slash (p : string) : string :=
  match String.get (String.length p - 1) p with
  | Some "/"%char =>
      if (1 <? String.length p)%nat
      then String.substring 0 (String.length p - 1) p else p
  | _ => p
  end.

Definition literal_recognize (r : LiteralRecognizer) (p : string)
  : option (list (RecognizeResult unit)) :=
  match rev (filter (fun d => String.eqb (route_path d)
                                         (drop_trailing_slash p)) r) with
  | [] => None
  | d :: _ => Some [mkRecognizeResult (route_handler d) [] false]
  end.

Definition stack_text (a : nat) : string := "    at <anonymous>".

(** The text of numbers beyond the safe integers; ten to the power 21 is
    the one such number the engine is asked about. *)
Definition number_text (n : Z) : string :=
  if n =? 10 ^ 21 then "1e+21" else decimal n.

Definition request (method path : string) (body : M value) : Request :=
  mkRequest "" body [] [] "https" method ("https://example.org" ++ path)
            "example.org" "443" path "" [].

(** [async () => { throw new InvalidRequestError(message) }] *)
Definition rejecting (message : string) : RouteHandler unit :=
  fun _ => e <- new_InvalidRequestError stack_text number_text
                                        (VString message) ;;
           throw e.

(** [async () => { throw v }] *)
Definition throwing (v : value) : RouteHandler unit := fun _ => throw v.

(** [async ({ res }) => res.json({ ok: true })] *)
Definition answering : RouteHandler unit :=
  fun _ => emit (ResJson [("ok", VBool true)] 200).

Definition router (h : RouteHandler unit) : Router LiteralRecognizer :=
  new_Router [] literal_add [mkRouteDef "/items" h].

Definition data (method path : string) : RouteHandlerDef unit :=
  mkRouteHandlerDef (request method path (ret VUndefined)) tt.

Definition start : world := mkWorld 0 [].

(** A recognizer that may be handed capabilities: one route, '/items'. *)
Definition capable_recognize (h : Capabilities.RouteHandler unit)
           (r : unit) (p : string)
  : M (option (list (Capabilities.RecognizeResult unit))) :=
  ret (if String.eqb p "/items"
       then Some [Capabilities.mkRecognizeResult h [] false]
       else None).

(** Request data whose [error] capability is the given one. *)
Definition capable_data (path : string) (error : value -> M unit)
  : Capabilities.RouteHandlerDef unit :=
  Capabilities.mkRouteHandlerDef
    (request "GET" path (ret VUndefined)) Capabilities.recording tt
    (fun message => emit (CallLog message)) error.

(** [(message) => { throw 'logger down' }] *)
Definition broken_logger : value -> M unit :=
  fun _ => throw (VString "logger down").

(** A JSON string literal of a text that needs no escaping. *)
Definition quoted (s : string) : string :=
  String "034"%char s ++ String "034"%char EmptyString.

(** An object that looks like an [InvalidRequestError] without being an
    instance of the class: [{ name: 'InvalidRequestError', message }]. *)
Definition lookalike (message : string) : value :=
  VObject 7 [ObjectPrototype]
          ([("name", VString "InvalidRequestError");
            ("message", VString message)] ++ Object_prototype_props)%list
          (JsonText ("{" ++ quoted "name" ++ ":" ++ quoted "InvalidRequestError"
                     ++ "," ++ quoted "message" ++ ":" ++ quoted message ++ "}")).

(** [{ a: 1 }] *)
Definition a_one : value :=
  VObject 8 [ObjectPrototype]
          ([("a", VNumber 1)] ++ Object_prototype_props)%list
          (JsonText ("{" ++ quoted "a" ++ ":1}")).

(** [{ count: 0 }] *)
Definition zero_count : value :=
  VObject 16 [ObjectPrototype]
          ([("count", VNumber 0)] ++ Object_prototype_props)%list
          (JsonText ("{" ++ quoted "count" ++ ":0}")).

(** [{ toString() { throw 'nope' } }] *)
Definition hostile : value :=
  VObject 17 [ObjectPrototype]
          [("toString",
            VFunction (UserFunction 12) "toString"
                      "toString() { throw 'nope' }" (Throws (VString "nope")));
           ("constructor", Object_constructor)]
          (JsonText "{}").

(** [Object.assign(Object.create(null), { message: 'boom' })] *)
Definition bare_message : value :=
  VObject 18 [] [("message", VString "boom")]
          (JsonText ("{" ++ quoted "message" ++ ":" ++ quoted "boom" ++ "}")).

(** [Object.create(null)] *)
Definition null_prototype_object : value :=
  VObject 9 [] [] (JsonText "{}").

(** [new ValidationError('bad shape')], for
    [class ValidationError extends Error {}]: the name is the inherited
    one. *)
Definition subclass_error : value :=
  VObject 10 [OtherPrototype 0; ErrorPrototype; ObjectPrototype]
          [("message", VString "bad shape");
           ("stack", VString (stack_text 10));
           ("name", VString "Error");
           ("constructor",
            VFunction (UserFunction 10) "ValidationError"
                      "class ValidationError extends Error {}"
                      (Returns VUndefined));
           ("toString", Error_prototype_toString)]
          (JsonText "{}").

(** [new (class {})()]: an instance of a class with no name. *)
Definition anonymous_instance : value :=
  VObject 11 [OtherPrototype 1; ObjectPrototype]
          [("constructor",
            VFunction (UserFunction 11) "" "class {}" (Returns VUndefined));
           ("toString", Object_prototype_toString)]
          (JsonText "{}").

(** [{ constructor: { name: 42 } }] *)
Definition odd_constructor : value :=
  VObject 12 [ObjectPrototype]
          ([("constructor",
             VObject 13 [ObjectPrototype]
                     ([("name", VNumber 42)] ++ Object_prototype_props)%list
                     (JsonText ("{" ++ quoted "name" ++ ":42}")))]
             ++ Object_prototype_props)%list
          (JsonText ("{" ++ quoted "constructor" ++ ":{" ++ quoted "name"
                     ++ ":42}}")).

(** What [JSON.stringify] throws on a cyclic structure. *)
Definition circular_structure : value :=
  error_object stack_text 15
               [TypeErrorPrototype; ErrorPrototype; ObjectPrototype]
               TypeError_constructor "TypeError"
               "Converting circular structure to JSON".

(** A cyclic object, [const o = {}; o.self = o].  A term is a finite
    tree: [self] holds the same address and the same JSON completion, and
    the properties of the inner occurrence are cut. *)
Definition cyclic_object : value :=
  VObject 14 [ObjectPrototype]
          ([("self", VObject 14 [ObjectPrototype] Object_prototype_props
                             (JsonThrows circular_structure))]
             ++ Object_prototype_props)%list
          (JsonThrows circular_structure).

(** A cyclic map, [const m = new Map(); m.self = m]: its tag is 'Map'. *)
Definition cyclic_map : value :=
  VObject 19 [OtherPrototype 2; ObjectPrototype]
          [("self", VObject 19 [OtherPrototype 2; ObjectPrototype] []
                            (JsonThrows circular_structure));
           ("constructor", constructor_function 13 "Map");
           ("toString",
            VFunction ObjectPrototypeToString "toString"
                      (native_source "toString")
                      (Returns (VString "[object Map]")))]
          (JsonThrows circular_structure).

(** A cyclic object that refuses conversion,
    [o.self = o; o[Symbol.toPrimitive] = () => { throw 'no' }]. *)
Definition unconvertible : value :=
  VObject 20 [ObjectPrototype]
          ([("self", VObject 20 [ObjectPrototype] []
                             (JsonThrows circular_structure));
            (Symbol_toPrimitive,
             VFunction (UserFunction 14) "" "() => { throw 'no' }"
                       (Throws (VString "no")))]
             ++ Object_prototype_props)%list
          (JsonThrows circular_structure).

(** A function with a [toString] of its own that raises,
    [f.toString = () => { throw 'no' }]. *)
Definition touchy_function : value :=
  VFunctionWith (UserFunction 15) "() => 1" (Returns (VNumber 1))
                [FunctionPrototype; ObjectPrototype]
                [("toString",
                  VFunction (UserFunction 16) "" "() => { throw 'no' }"
                            (Throws (VString "no")));
                 ("name", VString "f");
                 ("length", VNumber 0)].

End Fixtures.

(** * Properties *)

(** ** The monad *)

Lemma try_catch_normal {A} (c : M A) (h : value -> M A) w a w1 :
  c w = (Normal a, w1) -> try_catch c h w = (Normal a, w1).
Proof. intros E. unfold try_catch. now rewrite E. Qed.

Lemma try_catch_throw {A} (c : M A) (h : value -> M A) w v w1 :
  c w = (Throw v, w1) -> try_catch c h w = h v w1.
Proof. intros E. unfold try_catch. now rewrite E. Qed.

Lemma bind_normal {A B} (c : M A) (k : A -> M B) w a w1 :
  c w = (Normal a, w1) -> bind c k w = k a w1.
Proof. intros E. unfold bind. now rewrite E. Qed.

Lemma bind_throw {A B} (c : M A) (k : A -> M B) w v w1 :
  c w = (Throw v, w1) -> bind c k w = (Throw v, w1).
Proof. intros E. unfold bind. now rewrite E. Qed.

Lemma bind_inv {A B} (c : M A) (k : A -> M B) w b w1 :
  bind c k w = (Normal b, w1) ->
  exists a wa, c w = (Normal a, wa) /\ k a wa = (Normal b, w1).
Proof.
  unfold bind. destruct (c w) as [[a|v] wa]; try discriminate.
  intros E. now exists a, wa.
Qed.

(** ** Router.match *)

Section RouterProperties.

Context {Context : Type} {RouteRecognizer : Type}.
Variable recognize :
  RouteRecognizer -> string -> option (list (RecognizeResult Context)).

Local Abbreviation match_ := (match_ recognize).
Local Abbreviation handle := (handle recognize).
Local Abbreviation no_match := (no_match recognize).

Lemma match_no_match this r :
  no_match this (path r) -> match_ this r = mkMatchResult Context None [].
Proof. unfold no_match, match_. now intros [-> | ->]. Qed.

Lemma match_first this r r0 rest :
  recognize (recognizer this) (path r) = Some (r0 :: rest) ->
  match_ this r = mkMatchResult Context (Some (result_handler r0))
                                (result_params r0).
Proof. unfold match_. now intros ->. Qed.

(** What the catch block of [handle] does with a raised value. *)
Lemma handle_rejected this data h err w w1 :
  handler (match_ this (req data)) = Some h ->
  h (mkRouteHandlerParams data (match_params (match_ this (req data)))) w
  = (Throw err, w1) ->
  handle this data w =
  (Normal tt,
   mkWorld (next w1)
     (calls w1 ++
      [CallError err;
       if instanceof err InvalidRequestErrorPrototype
       then ResJson [("error", get err "message")] 400
       else ResJson [("error", VString "Internal Server Error")] 500])).
Proof.
  intros Hm Hh. unfold handle. rewrite Hm.
  rewrite (try_catch_throw _ _ _ _ _ Hh).
  unfold bind, emit; cbn.
  destruct (instanceof err InvalidRequestErrorPrototype); cbn;
    now rewrite <- app_assoc.
Qed.

Lemma instanceof_primitive v p : is_primitive v = true -> instanceof v p = false.
Proof. now destruct v. Qed.




(** The four ways exclude one another, and each fixes the final world. *)
Lemma dispatched_deterministic this data w o1 w1 o2 w2 :
  dispatched recognize this data w o1 w1 ->
  dispatched recognize this data w o2 w2 ->
  o1 = o2 /\ w1 = w2.
Proof.
  intros D1 D2; destruct D1; inversion D2; subst;
    repeat match goal with
      | H1 : ?x = Some _, H2 : ?x = None |- _ => congruence
      | H1 : ?x = Some ?a, H2 : ?x = Some ?b |- _ =>
          assert (a = b) by congruence; subst; clear H2
      | H1 : ?c = (_, _), H2 : ?c = (_, _) |- _ =>
          rewrite H1 in H2; inversion H2; subst; clear H2
      end;
    try congruence; now split.
Qed.

(** With the recording capabilities [handle] never raises, and every call
    ends in exactly one of four ways: the not-found response, the
    completion of the handler, the client-error response, the server-error
    response. *)
Lemma handle_total this data w :
  exists o w1,
    handle this data w = (Normal tt, w1) /\
    dispatched recognize this data w o w1 /\
    forall o2 w2, dispatched recognize this data w o2 w2 -> o2 = o /\ w2 = w1.
Proof.
  assert (exists o w1, handle this data w = (Normal tt, w1) /\
                       dispatched recognize this data w o w1)
    as (o & w1 & E & D).
  { destruct (handler (match_ this (req data))) as [h|] eqn:Hm.
    - destruct (h (mkRouteHandlerParams data
                     (match_params (match_ this (req data)))) w)
        as [[[]|err] w1] eqn:Hh.
      + exists HandlerCompleted, w1. split.
        * unfold handle. rewrite Hm. now apply try_catch_normal.
        * now apply dispatched_completed with h.
      + rewrite (handle_rejected _ _ _ _ _ _ Hm Hh).
        destruct (instanceof err InvalidRequestErrorPrototype) eqn:Hi.
        * eexists ClientError, _. split; [reflexivity|].
          now apply dispatched_client_error with h.
        * eexists ServerError, _. split; [reflexivity|].
          now apply dispatched_server_error with h.
    - eexists NotFound, _. split.
      + unfold handle. now rewrite Hm.
      + now apply dispatched_not_found. }
  exists o, w1. repeat split; trivial;
    now destruct (dispatched_deterministic _ _ _ _ _ _ _ D H).
Qed.

(** C8.  [match] reads the path of the request and nothing else: two
    requests with the same path, whatever their method, headers, query and
    body, get the same result from the same router; so does the same
    request asked twice. *)
Theorem match_path_only this r1 r2 :
  path r1 = path r2 -> match_ this r1 = match_ this r2.
Proof. intros E. unfold match_. now rewrite E. Qed.


End RouterProperties.

(** ** The router on the fixtures *)




Lemma match_path_only_witness :
  match_ Fixtures.literal_recognize (Fixtures.router Fixtures.answering)
         (Fixtures.request "GET" "/items" (ret VUndefined))
  = match_ Fixtures.literal_recognize (Fixtures.router Fixtures.answering)
           (Fixtures.request "DELETE" "/items" (throw VNull)).
Proof.
  apply (match_path_only Fixtures.literal_recognize
           (Fixtures.router Fixtures.answering)).
  reflexivity.
Defined.


(** ** The router and its capabilities *)

Section CapabilitiesProperties.

Context {Context : Type} {RouteRecognizer : Type}.

(** The router on the recording capabilities is the router of
    [Capabilities] handed those. *)
Lemma handle_recorded
      (recognize : RouteRecognizer -> string
                   -> option (list (RecognizeResult Context)))
      this data w :
  handle recognize this data w =
  Capabilities.handle
    (fun r p => ret (option_map (map with_capabilities_result) (recognize r p)))
    this (with_capabilities data) w.
Proof.
  unfold handle, match_, Capabilities.handle, Capabilities.match_.
  destruct data as [rq ctx]. unfold bind at 1 2. cbn.
  destruct (recognize (recognizer this) (path rq)) as [[|r0 rest]|]; reflexivity.
Qed.

Variable recognize :
  RouteRecognizer -> string
  -> M (option (list (Capabilities.RecognizeResult Context))).

Lemma capable_dispatched_deterministic this data w o1 w1 o2 w2 :
  Capabilities.dispatched recognize this data w o1 w1 ->
  Capabilities.dispatched recognize this data w o2 w2 ->
  o1 = o2 /\ w1 = w2.
Proof.
  intros D1 D2; destruct D1; inversion D2; subst;
    repeat match goal with
      | H1 : ?c = (Normal ?a, ?x), H2 : ?c = (Normal ?b, ?y) |- _ =>
          assert (a = b /\ x = y) as [? ?] by (split; congruence);
          subst; clear H2
      | H1 : ?c = (Throw ?a, ?x), H2 : ?c = (Throw ?b, ?y) |- _ =>
          assert (a = b /\ x = y) as [? ?] by (split; congruence);
          subst; clear H2
      | H1 : ?x = Some ?a, H2 : ?x = Some ?b |- _ =>
          assert (a = b) by congruence; subst; clear H2
      end;
    try congruence; now split.
Qed.

(** C4, as the code has it.  When the recognizer answers, and the [json]
    and [error] capabilities return whenever they are called, [handle]
    does not raise whatever the handler does, and the call ends in exactly
    one of four ways: the not-found response, the completion of the
    handler, the client-error response, the server-error response. *)
Theorem handle_never_raises this data w results w0 :
  recognize (recognizer this) (path (Capabilities.req data)) w
  = (Normal results, w0) ->
  (forall body status w1,
      exists w2, Capabilities.json (Capabilities.res data) body status w1
                 = (Normal tt, w2)) ->
  (forall err w1, exists w2, Capabilities.error data err w1 = (Normal tt, w2)) ->
  exists o w1,
    Capabilities.handle recognize this data w = (Normal tt, w1) /\
    Capabilities.dispatched recognize this data w o w1 /\
    forall o2 w2,
      Capabilities.dispatched recognize this data w o2 w2 ->
      o2 = o /\ w2 = w1.
Proof.
  intros Hr Hjson Herror.
  assert (exists o w1,
             Capabilities.handle recognize this data w = (Normal tt, w1) /\
             Capabilities.dispatched recognize this data w o w1)
    as (o & w1 & E & D).
  { pose proof (bind_normal _
                  (fun results =>
                     ret match results with
                         | Some (r0 :: _) =>
                             Capabilities.mkMatchResult Context
                               (Some (Capabilities.result_handler r0))
                               (Capabilities.result_params r0)
                         | _ => Capabilities.mkMatchResult Context None []
                         end) _ _ _ Hr) as Hm.
    cbn [ret] in Hm.
    change (Capabilities.match_ recognize this (Capabilities.req data) w
            = (Normal match results with
                      | Some (r0 :: _) =>
                          Capabilities.mkMatchResult Context
                            (Some (Capabilities.result_handler r0))
                            (Capabilities.result_params r0)
                      | _ => Capabilities.mkMatchResult Context None []
                      end, w0)) in Hm.
    remember (match results with
              | Some (r0 :: _) => _
              | _ => _
              end) as m eqn:Em. clear Em.
    unfold Capabilities.handle. rewrite (bind_normal _ _ _ _ _ Hm).
    destruct (Capabilities.handler m) as [h|] eqn:Hh.
    - destruct (h (Capabilities.mkRouteHandlerParams data
                     (Capabilities.match_params m)) w0)
        as [[[]|err] w1] eqn:Hrun.
      + exists HandlerCompleted, w1. split.
        * now apply try_catch_normal.
        * now apply Capabilities.dispatched_completed with m w0 h.
      + rewrite (try_catch_throw _ _ _ _ _ Hrun).
        destruct (Herror err w1) as (w2 & He).
        rewrite (bind_normal _ _ _ _ _ He).
        destruct (instanceof err InvalidRequestErrorPrototype) eqn:Hi.
        * destruct (Hjson [("error", get err "message")] 400 w2) as (w3 & Hj).
          exists ClientError, w3. split; [exact Hj|].
          now apply Capabilities.dispatched_client_error
            with m w0 h err w1 w2.
        * destruct (Hjson [("error", VString "Internal Server Error")] 500 w2)
            as (w3 & Hj).
          exists ServerError, w3. split; [exact Hj|].
          now apply Capabilities.dispatched_server_error
            with m w0 h err w1 w2.
    - destruct (Hjson [("error", VString "Not Found")] 404 w0) as (w1 & Hj).
      exists NotFound, w1. split; [exact Hj|].
      now apply Capabilities.dispatched_not_found with m w0. }
  exists o, w1. repeat split; trivial;
    now destruct (capable_dispatched_deterministic _ _ _ _ _ _ _ D H).
Qed.

End CapabilitiesProperties.

(** A handler raises and the [error] capability raises in its turn:
    [handle] raises what the capability raised, and no response is made. *)
Lemma handle_raises_with_logger :
  Capabilities.handle
    (Fixtures.capable_recognize (fun _ => throw VNull)) (mkRouter tt)
    (Fixtures.capable_data "/items" Fixtures.broken_logger) Fixtures.start
  = (Throw (VString "logger down"), Fixtures.start).
Proof. reflexivity. Qed.

Lemma handle_never_raises_witness :
  exists o w1,
    Capabilities.handle
      (Fixtures.capable_recognize (fun _ => throw VNull)) (mkRouter tt)
      (Fixtures.capable_data "/items" (fun message => emit (CallError message)))
      Fixtures.start
    = (Normal tt, w1) /\
    Capabilities.dispatched
      (Fixtures.capable_recognize (fun _ => throw VNull)) (mkRouter tt)
      (Fixtures.capable_data "/items" (fun message => emit (CallError message)))
      Fixtures.start o w1 /\
    forall o2 w2,
      Capabilities.dispatched
        (Fixtures.capable_recognize (fun _ => throw VNull)) (mkRouter tt)
        (Fixtures.capable_data "/items"
                               (fun message => emit (CallError message)))
        Fixtures.start o2 w2 ->
      o2 = o /\ w2 = w1.
Proof.
  apply (handle_never_raises
           (Fixtures.capable_recognize (fun _ => throw VNull)) (mkRouter tt)
           (Fixtures.capable_data "/items"
                                  (fun message => emit (CallError message)))
           Fixtures.start (Some [Capabilities.mkRecognizeResult
                                   (fun _ => throw VNull) [] false])
           Fixtures.start).
  - reflexivity.
  - intros body status w1. now eexists.
  - intros err w1. now eexists.
Defined.

(** ** Error normalisation *)

Section ErrorProperties.

Variable stack_trace : nat -> string.
Variable number_text : Z -> string.

Local Abbreviation asError := (asError stack_trace number_text).
Local Abbreviation getObjectMessage := (getObjectMessage stack_trace number_text).
Local Abbreviation new_Error := (new_Error stack_trace number_text).
Local Abbreviation String_ := (String_ stack_trace number_text).
Local Abbreviation normalized_error := (normalized_error stack_trace).
Local Abbreviation coerced := (coerced number_text).
Local Abbreviation plain_message := (plain_message number_text).
Local Abbreviation normalizable := (normalizable number_text).
Local Abbreviation expected_message := (expected_message number_text).

Lemma typeof_string v :
  String.eqb (typeof v) "string" = is_string v.
Proof. now destruct v. Qed.

Lemma is_string_inv v : is_string v = true -> exists s, v = VString s.
Proof. destruct v; try discriminate. now eexists. Qed.

Lemma isObject_inv v :
  isObject v = true -> exists a chain ps j, v = VObject a chain ps j.
Proof. destruct v; try discriminate. now eauto. Qed.

Lemma is_primitive_not_object v : is_primitive v = true -> isObject v = false.
Proof. now destruct v. Qed.

Lemma isError_isObject v : isError v = true -> isObject v = true.
Proof. unfold isError. now destruct (isObject v). Qed.

Lemma isError_object a chain ps j :
  isError (VObject a chain ps j) =
  is_string (get_property "name" ps) &&
  is_string (get_property "message" ps) &&
  (negb (has_property "stack" ps) || is_string (get_property "stack" ps)).
Proof. unfold isError, get; cbn. now rewrite !typeof_string. Qed.

Lemma asError_error_like v w :
  isError v = true -> asError v w = (Normal v, w).
Proof. intros E. unfold asError. now rewrite E. Qed.

(** [String(v)] never fails on a primitive value. *)
Lemma String_primitive v w :
  is_primitive v = true -> String_ v w = (Normal (coerced v), w).
Proof. destruct v as [| |[]| | | | | | |]; try discriminate; reflexivity. Qed.

Lemma asError_primitive v w :
  is_primitive v = true ->
  asError v w =
  (Normal (normalized_error (next w) (coerced v) (VString (typeof v))),
   allocated w).
Proof. destruct v as [| |[]| | | | | | |]; try discriminate; reflexivity. Qed.

(** ToString on an object, by the methods of the object. *)
Lemma to_string_field key default ps :
  (fix find (l : list (string * value)) : M string :=
     match l with
     | [] => ret default
     | (k, x) :: rest =>
         if String.eqb k key
         then match x with
              | VUndefined => ret default
              | _ => to_string stack_trace number_text x
              end
         else find rest
     end) ps
  = match get_property key ps with
    | VUndefined => ret default
    | x => to_string stack_trace number_text x
    end.
Proof.
  unfold get_property.
  induction ps as [|[k x] rest IH]; [reflexivity|].
  cbn [lookup]. destruct (String.eqb k key); [now destruct x|exact IH].
Qed.

Lemma to_string_object a chain ps j :
  to_string stack_trace number_text (VObject a chain ps j)
  = match get_property Symbol_toPrimitive ps with
    | VUndefined | VNull =>
        try_method stack_trace number_text "toString" ps
          (try_method stack_trace number_text "valueOf" ps
             (throw_TypeError stack_trace
                "Cannot convert object to primitive value"))
    | _ =>
        try_method stack_trace number_text Symbol_toPrimitive ps
          (throw_TypeError stack_trace
             "Cannot convert object to primitive value")
    end.
Proof.
  cbn [to_string]. unfold try_method, call_method, callable, Error_toString.
  rewrite !to_string_field.
  destruct (get_property Symbol_toPrimitive ps) eqn:Ep; cbn [as_function];
    try reflexivity;
    try (destruct (as_function (get_property "toString" ps))
           as [[[] []]|];
         destruct (as_function (get_property "valueOf" ps))
           as [[[] []]|];
         reflexivity).
  - destruct id, call; reflexivity.
  - destruct id, call; reflexivity.
Qed.

(** What [Object.prototype.toString] gives an object with no
    [Symbol.toPrimitive] is its string. *)
Lemma to_string_default a chain ps j tagged w :
  get_property Symbol_toPrimitive ps = VUndefined ->
  as_function (get_property "toString" ps)
  = Some (ObjectPrototypeToString, Returns (VString tagged)) ->
  to_string stack_trace number_text (VObject a chain ps j) w
  = (Normal tagged, w).
Proof.
  intros Ep Ef. rewrite to_string_object, Ep.
  unfold try_method, callable, call_method. rewrite Ef. reflexivity.
Qed.

Lemma getObjectMessage_plain obj s w :
  isObject obj = true ->
  plain_message obj = Some s ->
  exists m, getObjectMessage obj w = (Normal m, w) /\
            new_Error m w =
            (Normal (error_object stack_trace (next w)
                       [ErrorPrototype; ObjectPrototype] Error_constructor
                       "Error" s),
             allocated w).
Proof.
  intros Ho Hp. destruct (isObject_inv _ Ho) as (a & ch & ps & j & ->).
  unfold plain_message, getObjectMessage, is_Object_prototype_toString,
    call_method, get in *.
  cbn [props_of json_of] in *. rewrite typeof_string.
  destruct (get_property "message" ps) eqn:Em;
    try (injection Hp as <-; eexists; split; reflexivity); cbn [is_string].
  all: destruct (as_function (get_property "toString" ps))
    as [[[| |fid] c]|] eqn:Ef; try discriminate; cbn [negb].
  all: try (destruct c as [[| |[]| | | | | | |]|]; try discriminate;
            injection Hp as <-; eexists; split; reflexivity).
  all: destruct j as [t| |e];
    [injection Hp as <-; eexists; split; reflexivity ..|].
  all: destruct (get_property Symbol_toPrimitive ps) eqn:Ep;
    try discriminate;
    destruct c as [[]|]; try discriminate; injection Hp as <-;
    match goal with
    | H : _ = Some (_, Returns (VString ?t)) |- _ => exists (VString t)
    end;
    (split; [|reflexivity]);
    rewrite (try_catch_throw _ _ w e w) by reflexivity;
    unfold bind, String_;
    now rewrite (to_string_default _ _ _ _ _ _ Ep Ef).
Qed.

Lemma read_name_constructor obj n w :
  constructor_name obj = Some n ->
  read_name stack_trace (get obj "constructor") w = (Normal n, w).
Proof.
  unfold constructor_name.
  destruct (get obj "constructor"); intros E; try discriminate;
    now injection E as <-.
Qed.

Lemma constructor_name_some obj :
  loosely_null (get obj "constructor") = false ->
  exists n, constructor_name obj = Some n.
Proof.
  unfold constructor_name.
  destruct (get obj "constructor"); try discriminate; now eexists.
Qed.

Lemma asError_plain_object obj s n w :
  isObject obj = true ->
  isError obj = false ->
  plain_message obj = Some s ->
  constructor_name obj = Some n ->
  asError obj w =
  (Normal (normalized_error (next w) s
             (if truthy n then n else VString (typeof obj))),
   allocated w).
Proof.
  intros Ho He Hp Hc.
  destruct (getObjectMessage_plain _ _ w Ho Hp) as (m & Hm & Hn).
  unfold asError. rewrite He, Ho.
  rewrite (bind_normal _ _ _ _ _ Hm).
  rewrite (bind_normal _ _ _ _ _ Hn).
  rewrite (bind_normal _ _ _ _ _
             (bind_normal _ _ _ _ _ (read_name_constructor _ _ _ Hc))).
  reflexivity.
Qed.

(** The message of an error-like value, and of a built error, is a
    string. *)
Lemma isError_message v : isError v = true -> is_string (get v "message") = true.
Proof.
  intros E. destruct (isObject_inv _ (isError_isObject _ E))
    as (a & ch & ps & j & ->).
  rewrite isError_object in E. unfold get; cbn.
  now destruct (is_string (get_property "name" ps)),
               (is_string (get_property "message" ps)).
Qed.

Lemma normalized_error_message a m n :
  get (normalized_error a m n) "message" = VString m.
Proof. reflexivity. Qed.

Lemma normalized_error_name a m n :
  get (normalized_error a m n) "name" = n.
Proof. reflexivity. Qed.

Lemma isError_normalized_error a m n :
  isError (normalized_error a m n) = is_string n.
Proof.
  unfold normalized_error, error_object. cbn [set assign String.eqb Ascii.eqb
    Bool.eqb]. rewrite isError_object. cbn.
  now destruct (is_string n).
Qed.

(** What [new Error(message)] returns. *)
Lemma new_Error_inv m w e w1 :
  new_Error m w = (Normal e, w1) ->
  exists a s, e = error_object stack_trace a [ErrorPrototype; ObjectPrototype]
                               Error_constructor "Error" s.
Proof.
  intros E. unfold new_Error in E.
  apply bind_inv in E as (a & wa & _ & E).
  apply bind_inv in E as (s & ws & _ & E).
  injection E as <- <-. now exists a, s.
Qed.

(** [asError] on a value that is not error-like, step by step: the
    message, the error, the name. *)
Lemma asError_steps err m w w1 e w2 :
  isError err = false ->
  (if isObject err then getObjectMessage err
   else s <- String_ err ;; ret (VString s)) w = (Normal m, w1) ->
  new_Error m w1 = (Normal e, w2) ->
  (isObject err = true -> loosely_null (get err "constructor") = false) ->
  asError err w = (Normal (set e "name" (expected_name err)), w2).
Proof.
  intros He Hm Hn Hc. unfold asError. rewrite He.
  rewrite (bind_normal _ _ _ _ _ Hm), (bind_normal _ _ _ _ _ Hn).
  unfold expected_name. destruct (isObject err) eqn:Ho.
  - destruct (constructor_name_some _ (Hc eq_refl)) as (n & Hcn).
    rewrite (bind_normal _ _ _ _ _
               (bind_normal _ _ _ _ _ (read_name_constructor _ _ _ Hcn))).
    now rewrite Hcn.
  - reflexivity.
Qed.

(** C7, as the code has it.  First, on a primitive value, on an
    error-like value, and on an object with a plain message and a
    constructor, cyclic ones among them, [asError] returns and the message
    of the result is a string: an error-like value comes back as it is; any
    other gives a new error whose message is the coercion of the value or
    the plain message of the object.  Second, on any value that is not
    error-like, whenever building the message and then the error does not
    raise and the constructor of an object is neither [undefined] nor
    [null], [asError] returns that error, its message a string.  In both
    cases the name of the new error is the type tag of a value that is not
    an object, the name of the constructor of an object when that name is
    truthy, and the type tag 'object' when it is not. *)
Theorem asError_normalizes err w :
  (normalizable err = true ->
   exists e w1,
     asError err w = (Normal e, w1) /\
     is_string (get e "message") = true /\
     (isError err = true -> e = err /\ w1 = w) /\
     (isError err = false ->
      e = normalized_error (next w) (expected_message err) (expected_name err)
      /\ w1 = allocated w)) /\
  (forall m w1 e w2,
      isError err = false ->
      (if isObject err then getObjectMessage err
       else s <- String_ err ;; ret (VString s)) w = (Normal m, w1) ->
      new_Error m w1 = (Normal e, w2) ->
      (isObject err = true -> loosely_null (get err "constructor") = false) ->
      asError err w = (Normal (set e "name" (expected_name err)), w2) /\
      is_string (get (set e "name" (expected_name err)) "message") = true /\
      get (set e "name" (expected_name err)) "name" = expected_name err).
Proof.
  split.
  - intros Hn. destruct (isError err) eqn:He.
    + exists err, w. repeat split; try discriminate.
      * now apply asError_error_like.
      * now apply isError_message.
    + unfold normalizable in Hn. rewrite He, orb_false_r in Hn.
      unfold expected_message, expected_name.
      destruct (is_primitive err) eqn:Hp; cbn [orb] in Hn.
      * rewrite (is_primitive_not_object _ Hp).
        eexists _, _. split; [now apply asError_primitive|].
        repeat split; discriminate.
      * destruct (isObject err) eqn:Ho; try discriminate. cbn [andb] in Hn.
        destruct (plain_message err) as [s|] eqn:Hs; try discriminate.
        destruct (constructor_name err) as [n|] eqn:Hc; try discriminate.
        eexists _, _. split; [apply asError_plain_object; eassumption|].
        repeat split; discriminate.
  - intros m w1 e w2 He Hm Hn Hc.
    split; [now apply asError_steps with m w1|].
    destruct (new_Error_inv _ _ _ _ Hn) as (a & s & ->). split; reflexivity.
Qed.

(** Idempotence needs the result to be error-like; its message and its
    stack always are strings, its name need not be. *)
Lemma asError_result v w e w1 :
  asError v w = (Normal e, w1) ->
  (isError v = true /\ e = v /\ w1 = w) \/
  (isError v = false /\
   exists a m n, e = normalized_error a m n /\
                 (isObject v = false -> n = VString (typeof v))).
Proof.
  unfold asError. destruct (isError v) eqn:He.
  - intros E. injection E as <- <-. now left.
  - intros E. right. split; [reflexivity|].
    apply bind_inv in E as (m & wm & _ & E).
    apply bind_inv in E as (error & we & Hne & E).
    apply bind_inv in E as (n & wn & Hname & E).
    injection E as <- <-.
    destruct (new_Error_inv _ _ _ _ Hne) as (a & s & ->).
    exists a, s, n. split; [reflexivity|].
    intros Ho. rewrite Ho in Hname. now injection Hname as <-.
Qed.

(** C10, as the code has it.  [isError] accepts exactly the objects, of
    any class, with a string name, a string message and a stack that is
    absent or a string; [asError] returns such a value itself, allocating
    nothing; and whenever [asError] returns a result whose name is a
    string, applying [asError] to that result returns it again.  The name
    of the result is a string whenever the value is not an object; on a
    primitive value [asError] always returns. *)
Theorem asError_idempotent_on_error_like :
  (forall a chain ps j,
      isError (VObject a chain ps j) = true <->
      is_string (get_property "name" ps) = true /\
      is_string (get_property "message" ps) = true /\
      (has_property "stack" ps = false \/
       is_string (get_property "stack" ps) = true)) /\
  (forall v w, isError v = true -> asError v w = (Normal v, w)) /\
  (forall v w e w1,
      asError v w = (Normal e, w1) ->
      is_string (get e "name") = true ->
      asError e w1 = (Normal e, w1)) /\
  (forall v w e w1,
      isObject v = false ->
      asError v w = (Normal e, w1) ->
      asError e w1 = (Normal e, w1)) /\
  (forall v w,
      is_primitive v = true ->
      exists e w1, asError v w = (Normal e, w1) /\
                   asError e w1 = (Normal e, w1)).
Proof.
  split; [|split; [|split; [|split]]].
  - intros a chain ps j. rewrite isError_object, !andb_true_iff, orb_true_iff,
      negb_true_iff. tauto.
  - exact asError_error_like.
  - intros v w e w1 E Hn. apply asError_error_like.
    destruct (asError_result _ _ _ _ E)
      as [(He & -> & _) | (_ & a & m & n & -> & _)];
      [exact He|].
    rewrite isError_normalized_error. exact Hn.
  - intros v w e w1 Ho E. apply asError_error_like.
    destruct (asError_result _ _ _ _ E)
      as [(He & _) | (_ & a & m & n & -> & Hn)].
    + apply isError_isObject in He. congruence.
    + rewrite isError_normalized_error, (Hn Ho). reflexivity.
  - intros v w Hp. eexists _, _. split; [now apply asError_primitive|].
    apply asError_error_like. now rewrite isError_normalized_error.
Qed.

End ErrorProperties.

(** ** Error normalisation on the fixtures *)

Lemma asError_normalizes_witness :
  exists e w1,
    asError Fixtures.stack_text Fixtures.number_text Fixtures.cyclic_object
            Fixtures.start
    = (Normal e, w1) /\
    is_string (get e "message") = true /\
    (isError Fixtures.cyclic_object = true ->
     e = Fixtures.cyclic_object /\ w1 = Fixtures.start) /\
    (isError Fixtures.cyclic_object = false ->
     e = normalized_error Fixtures.stack_text 0 "[object Object]"
                          (VString "Object")
     /\ w1 = mkWorld 1 []).
Proof.
  apply (proj1 (asError_normalizes Fixtures.stack_text Fixtures.number_text
                  Fixtures.cyclic_object Fixtures.start)).
  reflexivity.
Defined.

(** [asError(null)] and [asError(42)]: the message is the coercion of the
    value. *)
Example asError_null :
  asError Fixtures.stack_text Fixtures.number_text VNull Fixtures.start
  = (Normal (normalized_error Fixtures.stack_text 0 "null" (VString "object")),
     mkWorld 1 []).
Proof. reflexivity. Qed.

Example asError_42 :
  asError Fixtures.stack_text Fixtures.number_text (VNumber 42) Fixtures.start
  = (Normal (normalized_error Fixtures.stack_text 0 "42" (VString "number")),
     mkWorld 1 []).
Proof. reflexivity. Qed.

(** An error of a subclass that sets no name is error-like: it comes back
    as it is, named 'Error'. *)
Example asError_subclass_error :
  asError Fixtures.stack_text Fixtures.number_text Fixtures.subclass_error
          Fixtures.start
  = (Normal Fixtures.subclass_error, Fixtures.start).
Proof. reflexivity. Qed.

(** An object with no prototype has no [toString] to call: [asError]
    raises the [TypeError] of the engine. *)
Example asError_null_prototype_object :
  asError Fixtures.stack_text Fixtures.number_text
          Fixtures.null_prototype_object Fixtures.start
  = (Throw (error_object Fixtures.stack_text 0
              [TypeErrorPrototype; ErrorPrototype; ObjectPrototype]
              TypeError_constructor "TypeError"
              "obj.toString is not a function"),
     mkWorld 1 []).
Proof. reflexivity. Qed.

(** The text of a number beyond the safe integers is the engine's. *)
Example asError_big_number :
  asError Fixtures.stack_text Fixtures.number_text (VNumber (10 ^ 21))
          Fixtures.start
  = (Normal (normalized_error Fixtures.stack_text 0 "1e+21" (VString "number")),
     mkWorld 1 []).
Proof. reflexivity. Qed.

(** A cyclic map is described by its tag. *)
Example asError_cyclic_map :
  asError Fixtures.stack_text Fixtures.number_text Fixtures.cyclic_map
          Fixtures.start
  = (Normal (normalized_error Fixtures.stack_text 0 "[object Map]"
                              (VString "Map")),
     mkWorld 1 []).
Proof. reflexivity. Qed.

(** What [Symbol.toPrimitive] raises after [JSON.stringify] failed, and
    what the [toString] of a function raises, escape [asError]. *)
Example asError_unconvertible :
  asError Fixtures.stack_text Fixtures.number_text Fixtures.unconvertible
          Fixtures.start
  = (Throw (VString "no"), Fixtures.start).
Proof. reflexivity. Qed.

Example asError_touchy_function :
  asError Fixtures.stack_text Fixtures.number_text Fixtures.touchy_function
          Fixtures.start
  = (Throw (VString "no"), Fixtures.start).
Proof. reflexivity. Qed.

(** An instance of a class with no name is an object that is not
    error-like; the name of its constructor is the empty string, and the
    error built for it is named by the type tag, 'object'. *)
Lemma asError_names_by_type_tag :
  isObject Fixtures.anonymous_instance = true /\
  isError Fixtures.anonymous_instance = false /\
  asError Fixtures.stack_text Fixtures.number_text Fixtures.anonymous_instance
          Fixtures.start
  = (Normal (normalized_error Fixtures.stack_text 0 "{}" (VString "object")),
     mkWorld 1 []) /\
  read_name Fixtures.stack_text (get Fixtures.anonymous_instance "constructor")
            Fixtures.start
  = (Normal (VString ""), Fixtures.start) /\
  ~ normalizes_by_constructor Fixtures.stack_text Fixtures.number_text
      Fixtures.anonymous_instance Fixtures.start.
Proof.
  repeat split.
  intros (e & w1 & E & _ & w2 & N). cbn in E, N.
  injection E as <- <-. discriminate N.
Qed.

(** The error built for [{ constructor: { name: 42 } }] is named 42, so it
    is not error-like, and [asError] builds another error from it. *)
Lemma asError_not_idempotent :
  exists e w1 e2 w2,
    asError Fixtures.stack_text Fixtures.number_text Fixtures.odd_constructor
            Fixtures.start
    = (Normal e, w1) /\
    asError Fixtures.stack_text Fixtures.number_text e w1 = (Normal e2, w2) /\
    e2 <> e /\
    get e "name" = VNumber 42 /\ get e2 "name" = VString "Error".
Proof.
  eexists _, _, _, _. repeat split. discriminate.
Qed.

Lemma asError_idempotent_on_error_like_witness :
  asError Fixtures.stack_text Fixtures.number_text
          (normalized_error Fixtures.stack_text 0
             ("{" ++ Fixtures.quoted "a" ++ ":1}") (VString "Object"))
          (mkWorld 1 [])
  = (Normal (normalized_error Fixtures.stack_text 0
               ("{" ++ Fixtures.quoted "a" ++ ":1}") (VString "Object")),
     mkWorld 1 []).
Proof.
  apply (proj1 (proj2 (proj2
           (asError_idempotent_on_error_like Fixtures.stack_text
              Fixtures.number_text)))
           Fixtures.a_one Fixtures.start);
    reflexivity.
Defined.

(** ** Request validation *)

Section ValidationProperties.

Variable stack_trace : nat -> string.
Variable number_text : Z -> string.

Local Abbreviation throwIfMissing := (throwIfMissing stack_trace number_text).
Local Abbreviation getData := (getData stack_trace number_text).
Local Abbreviation invalid_request_error := (invalid_request_error stack_trace).

Lemma new_InvalidRequestError_string m w :
  new_InvalidRequestError stack_trace number_text (VString m) w
  = (Normal (invalid_request_error (next w) m), allocated w).
Proof. reflexivity. Qed.

Lemma instanceof_invalid_request_error a m :
  instanceof (invalid_request_error a m) InvalidRequestErrorPrototype = true.
Proof. reflexivity. Qed.

Lemma invalid_request_error_message a m :
  get (invalid_request_error a m) "message" = VString m.
Proof. reflexivity. Qed.

Lemma is_missing_test obj key :
  negb (has_property key (props_of obj)) || negb (truthy (get obj key))
  = is_missing obj key.
Proof.
  unfold is_missing, has_property, get, get_property.
  now destruct (lookup key (props_of obj)).
Qed.

(** On an object or a function the loop pushes the missing keys in the
    order of the list. *)
Lemma collect_missing_filter obj keys acc w :
  is_primitive obj = false ->
  collect_missing stack_trace number_text obj keys acc w
  = (Normal (acc ++ filter (is_missing obj) keys)%list, w).
Proof.
  intros Hp. revert acc.
  induction keys as [|k keys IH]; intros acc; cbn [collect_missing filter].
  - unfold ret. now rewrite app_nil_r.
  - unfold bind, in_operator. rewrite Hp. cbn [ret].
    rewrite IH, is_missing_test. destruct (is_missing obj k); [|reflexivity].
    now rewrite <- app_assoc.
Qed.

Lemma throwIfMissing_filter obj keys w :
  is_primitive obj = false ->
  throwIfMissing obj keys w =
  match filter (is_missing obj) keys with
  | [] => (Normal tt, w)
  | missing =>
      (Throw (invalid_request_error (next w)
                ("Missing required fields: " ++ String.concat ", " missing)),
       allocated w)
  end.
Proof.
  intros Hp. unfold throwIfMissing.
  rewrite (bind_normal _ _ _ _ _ (collect_missing_filter _ _ _ _ Hp)).
  cbn [app].
  destruct (filter (is_missing obj) keys) as [|k rest]; [reflexivity|].
  replace (0 <? Z.of_nat (List.length (k :: rest))) with true
    by (symmetry; apply Z.ltb_lt; cbn [List.length]; lia).
  reflexivity.
Qed.

(** On a primitive value the first [in] raises the [TypeError] of the
    engine; with no key to look for, nothing is asked of the value. *)
Lemma throwIfMissing_primitive obj keys w :
  is_primitive obj = true ->
  match keys with
  | [] => throwIfMissing obj keys w = (Normal tt, w)
  | _ :: _ =>
      exists e,
        throwIfMissing obj keys w = (Throw e, allocated w) /\
        instanceof e TypeErrorPrototype = true /\
        instanceof e InvalidRequestErrorPrototype = false
  end.
Proof.
  intros Hp. destruct keys as [|k rest]; [reflexivity|].
  unfold throwIfMissing. cbn [collect_missing]. unfold in_operator.
  rewrite Hp. eexists. split; [reflexivity|]. split; reflexivity.
Qed.

(** C6.  On an object and a list of keys, [throwIfMissing] raises if and
    only if some listed key is absent from the object or present with a
    falsy value; what it raises then is an [InvalidRequestError] whose
    message is 'Missing required fields: ' followed by the missing keys, in
    the order of the list, joined by ', '; otherwise it returns.  On
    [{ a: 1 }] and the keys a, b the message contains b and not a. *)
Theorem throwIfMissing_spec a chain ps j keys w :
  throwIfMissing (VObject a chain ps j) keys w =
  match filter (is_missing (VObject a chain ps j)) keys with
  | [] => (Normal tt, w)
  | missing =>
      (Throw (invalid_request_error (next w)
                ("Missing required fields: " ++ String.concat ", " missing)),
       allocated w)
  end
  /\
  ((exists key, In key keys /\ is_missing (VObject a chain ps j) key = true)
   <-> exists e w1,
       throwIfMissing (VObject a chain ps j) keys w = (Throw e, w1) /\
       instanceof e InvalidRequestErrorPrototype = true)
  /\
  exists m,
    throwIfMissing Fixtures.a_one ["a"; "b"] w
    = (Throw (invalid_request_error (next w) m), allocated w) /\
    contains "b" m = true /\ contains "a" m = false.
Proof.
  split; [now apply throwIfMissing_filter|split].
  - rewrite throwIfMissing_filter by reflexivity.
    destruct (filter (is_missing (VObject a chain ps j)) keys)
      as [|k rest] eqn:F.
    + split.
      * intros (key & Hin & Hk).
        assert (In key (filter (is_missing (VObject a chain ps j)) keys))
          as Hf by (apply filter_In; now split).
        rewrite F in Hf. destruct Hf.
      * intros (e & w1 & E & _). discriminate E.
    + split.
      * intros _. eexists _, _. split; reflexivity.
      * intros _. exists k. apply filter_In. rewrite F. now left.
  - eexists. repeat split.
Qed.

(** [getData], step 1: reading the body raises. *)
Lemma getData_body_raises {T} req (validator : value -> M T) v w w1 :
  bodyJson req w = (Throw v, w1) ->
  getData req validator w
  = (Throw (invalid_request_error (next w1) "Invalid request body"),
     allocated w1).
Proof.
  intros Eb. unfold getData.
  apply bind_throw. now rewrite (try_catch_throw _ _ _ _ _ Eb).
Qed.

(** [getData], step 2: the validator returns. *)
Lemma getData_validator_returns {T} req (validator : value -> M T)
      body t w w1 w2 :
  bodyJson req w = (Normal body, w1) ->
  validator body w1 = (Normal t, w2) ->
  getData req validator w = (Normal t, w2).
Proof.
  intros Eb Ev. unfold getData.
  rewrite (bind_normal _ _ _ _ _ (try_catch_normal _ _ _ _ _ Eb)).
  now apply try_catch_normal.
Qed.

(** [getData], step 2: the validator raises a value that [asError]
    normalises to [e]. *)
Lemma getData_validator_raises {T} req (validator : value -> M T)
      body v e m w w1 w2 w3 :
  bodyJson req w = (Normal body, w1) ->
  validator body w1 = (Throw v, w2) ->
  asError stack_trace number_text v w2 = (Normal e, w3) ->
  get e "message" = VString m ->
  getData req validator w
  = (Throw (invalid_request_error (next w3) m), allocated w3).
Proof.
  intros Eb Ev Ea Em. unfold getData.
  rewrite (bind_normal _ _ _ _ _ (try_catch_normal _ _ _ _ _ Eb)).
  rewrite (try_catch_throw _ _ _ _ _ Ev).
  rewrite (bind_normal _ _ _ _ _ Ea), Em.
  reflexivity.
Qed.

(** [getData] when the validator raises a value that [asError] does not
    normalise: what [asError] raises escapes. *)
Lemma getData_validator_raises_unnormalised {T} req (validator : value -> M T)
      body v x w w1 w2 w3 :
  bodyJson req w = (Normal body, w1) ->
  validator body w1 = (Throw v, w2) ->
  asError stack_trace number_text v w2 = (Throw x, w3) ->
  getData req validator w = (Throw x, w3).
Proof.
  intros Eb Ev Ea. unfold getData.
  rewrite (bind_normal _ _ _ _ _ (try_catch_normal _ _ _ _ _ Eb)).
  rewrite (try_catch_throw _ _ _ _ _ Ev).
  now apply bind_throw.
Qed.

End ValidationProperties.

(** ** Request validation on the fixtures *)

(** The validator raises [Error('bad shape')], here of a subclass. *)
Example getData_bad_shape :
  getData Fixtures.stack_text Fixtures.number_text
          (Fixtures.request "POST" "/items" (ret Fixtures.a_one))
          (fun _ => throw (A := value) Fixtures.subclass_error)
          Fixtures.start
  = (Throw (invalid_request_error Fixtures.stack_text 0 "bad shape"),
     mkWorld 1 []).
Proof. reflexivity. Qed.

(** The body cannot be read. *)
Example getData_invalid_body :
  getData Fixtures.stack_text Fixtures.number_text
          (Fixtures.request "POST" "/items" (throw (VString "Unexpected token")))
          (fun body => ret body) Fixtures.start
  = (Throw (invalid_request_error Fixtures.stack_text 0 "Invalid request body"),
     mkWorld 1 []).
Proof. reflexivity. Qed.

(** On a string the [in] operator raises; [getData] turns the
    [TypeError] of the engine into an [InvalidRequestError] with its
    message. *)
Example throwIfMissing_string :
  throwIfMissing Fixtures.stack_text Fixtures.number_text (VString "hello")
                 ["a"] Fixtures.start
  = (Throw (error_object Fixtures.stack_text 0
              [TypeErrorPrototype; ErrorPrototype; ObjectPrototype]
              TypeError_constructor "TypeError"
              "Cannot use 'in' operator to search for 'a' in hello"),
     mkWorld 1 []).
Proof. reflexivity. Qed.

Example getData_string_body :
  getData Fixtures.stack_text Fixtures.number_text
          (Fixtures.request "POST" "/items" (ret (VString "hello")))
          (fun b => throwIfMissing Fixtures.stack_text Fixtures.number_text
                                   b ["a"] ;;; ret b)
          Fixtures.start
  = (Throw (invalid_request_error Fixtures.stack_text 1
              "Cannot use 'in' operator to search for 'a' in hello"),
     mkWorld 2 []).
Proof. reflexivity. Qed.

(** C5, at a validator that raises an object with no prototype:
    [getData] raises the [TypeError] that [asError] raised, which is not an
    [InvalidRequestError]. *)
Theorem getData_null_prototype_rejection :
  getData Fixtures.stack_text Fixtures.number_text
          (Fixtures.request "POST" "/items" (ret Fixtures.a_one))
          (fun _ => throw (A := value) Fixtures.null_prototype_object)
          Fixtures.start
  = (Throw (error_object Fixtures.stack_text 0
              [TypeErrorPrototype; ErrorPrototype; ObjectPrototype]
              TypeError_constructor "TypeError"
              "obj.toString is not a function"),
     mkWorld 1 []) /\
  instanceof (error_object Fixtures.stack_text 0
                [TypeErrorPrototype; ErrorPrototype; ObjectPrototype]
                TypeError_constructor "TypeError"
                "obj.toString is not a function")
             InvalidRequestErrorPrototype = false.
Proof. split; reflexivity. Qed.

(** * Further properties *)

(** ** The router *)

Section RouterFurther.

Context {Context : Type}.

(** X1.  When the matched handler completes without raising, [handle]
    completes with the world the handler left: the router makes no call
    of its own, neither a response nor a log. *)
Theorem handle_handler_completes {RouteRecognizer : Type}
        (recognize : RouteRecognizer -> string
                     -> option (list (RecognizeResult Context)))
        this data h w w1 :
  handler (match_ recognize this (req data)) = Some h ->
  h (mkRouteHandlerParams data
       (match_params (match_ recognize this (req data)))) w
  = (Normal tt, w1) ->
  handle recognize this data w = (Normal tt, w1).
Proof.
  intros Hm Hh. unfold handle. rewrite Hm. now apply try_catch_normal.
Qed.

End RouterFurther.

Lemma handle_handler_completes_witness :
  handle Fixtures.literal_recognize (Fixtures.router Fixtures.answering)
         (Fixtures.data "GET" "/items") Fixtures.start
  = (Normal tt, mkWorld 0 [ResJson [("ok", VBool true)] 200]).
Proof.
  apply (handle_handler_completes Fixtures.literal_recognize
           (Fixtures.router Fixtures.answering)
           (Fixtures.data "GET" "/items") Fixtures.answering
           Fixtures.start (mkWorld 0 [ResJson [("ok", VBool true)] 200]));
    reflexivity.
Defined.

(** ** Request validation *)

Section ValidationFurther.

Variable stack_trace : nat -> string.
Variable number_text : Z -> string.

Local Abbreviation throwIfMissing := (throwIfMissing stack_trace number_text).
Local Abbreviation getData := (getData stack_trace number_text).
Local Abbreviation asError := (asError stack_trace number_text).
Local Abbreviation invalid_request_error := (invalid_request_error stack_trace).
Local Abbreviation new_InvalidRequestError :=
  (new_InvalidRequestError stack_trace number_text).

Lemma is_missing_false obj key :
  is_missing obj key = false ->
  has_property key (props_of obj) = true /\ truthy (get obj key) = true.
Proof.
  unfold is_missing, has_property, get, get_property.
  destruct (lookup key (props_of obj)); [|discriminate].
  intros E. split; [reflexivity|]. now apply negb_false_iff.
Qed.

Lemma is_missing_primitive obj key :
  is_primitive obj = true -> is_missing obj key = true.
Proof. now destruct obj. Qed.

Lemma throwIfMissing_returns_iff obj keys w :
  (exists w1, throwIfMissing obj keys w = (Normal tt, w1)) <->
  filter (is_missing obj) keys = [].
Proof.
  destruct (is_primitive obj) eqn:Hp.
  - pose proof (throwIfMissing_primitive stack_trace number_text obj keys w Hp)
      as H.
    destruct keys as [|k rest]; [split; [reflexivity|now exists w]|].
    destruct H as (e & E & _). cbn [filter].
    rewrite (is_missing_primitive _ _ Hp). split; [|discriminate].
    intros (w1 & E1). congruence.
  - rewrite throwIfMissing_filter by exact Hp.
    destruct (filter (is_missing obj) keys); split; intros H;
      try reflexivity; try discriminate H.
    + now exists w.
    + now destruct H.
Qed.

Lemma throwIfMissing_returns_world obj keys w w1 :
  throwIfMissing obj keys w = (Normal tt, w1) -> w1 = w.
Proof.
  intros E. destruct (is_primitive obj) eqn:Hp.
  - pose proof (throwIfMissing_primitive stack_trace number_text obj keys w Hp)
      as H.
    destruct keys as [|k rest]; [congruence|].
    destruct H as (e & E1 & _). congruence.
  - rewrite throwIfMissing_filter in E by exact Hp.
    destruct (filter (is_missing obj) keys); [congruence|discriminate].
Qed.

(** X3.  When [throwIfMissing] returns, every listed key is in the object
    with a truthy value, and nothing was allocated or called. *)
Theorem throwIfMissing_returns obj keys w w1 :
  throwIfMissing obj keys w = (Normal tt, w1) ->
  w1 = w /\
  forall key, In key keys ->
              has_property key (props_of obj) = true /\
              truthy (get obj key) = true.
Proof.
  intros E.
  assert (filter (is_missing obj) keys = []) as F
      by (apply (proj1 (throwIfMissing_returns_iff obj keys w)); now exists w1).
  split; [now apply throwIfMissing_returns_world with obj keys|].
  intros key Hin. apply is_missing_false.
  destruct (is_missing obj key) eqn:Hk; [|reflexivity].
  assert (In key (filter (is_missing obj) keys)) as Hf
      by (apply filter_In; now split).
  rewrite F in Hf. destruct Hf.
Qed.

(** X4.  A listed key that the object holds with a falsy value
    ([undefined], [null], [false], [0], [0n], the empty string) counts as
    missing: [throwIfMissing] raises an [InvalidRequestError] that
    enumerates it. *)
Theorem throwIfMissing_falsy obj keys key v w :
  In key keys ->
  lookup key (props_of obj) = Some v ->
  truthy v = false ->
  exists missing,
    In key missing /\
    throwIfMissing obj keys w
    = (Throw (invalid_request_error (next w)
                ("Missing required fields: " ++ String.concat ", " missing)),
       allocated w).
Proof.
  intros Hin Hl Hv.
  assert (In key (filter (is_missing obj) keys)) as Hf.
  { apply filter_In. split; [exact Hin|].
    unfold is_missing. now rewrite Hl, Hv. }
  exists (filter (is_missing obj) keys). split; [exact Hf|].
  rewrite throwIfMissing_filter
    by (destruct obj; try reflexivity; discriminate Hl).
  destruct (filter (is_missing obj) keys); [destruct Hf|reflexivity].
Qed.

(** X5.  Checking two lists of keys at once succeeds exactly when checking
    each of them succeeds. *)
Theorem throwIfMissing_app obj keys1 keys2 w :
  (exists w1, throwIfMissing obj (keys1 ++ keys2) w = (Normal tt, w1)) <->
  (exists w1, throwIfMissing obj keys1 w = (Normal tt, w1)) /\
  (exists w1, throwIfMissing obj keys2 w = (Normal tt, w1)).
Proof.
  rewrite !throwIfMissing_returns_iff, filter_app. split.
  - intros E. now apply app_eq_nil in E.
  - intros [-> ->]. reflexivity.
Qed.

End ValidationFurther.

Lemma throwIfMissing_returns_witness :
  mkWorld 3 [] = mkWorld 3 [] /\
  forall key, In key ["a"; "toString"] ->
              has_property key (props_of Fixtures.a_one) = true /\
              truthy (get Fixtures.a_one key) = true.
Proof.
  apply (throwIfMissing_returns Fixtures.stack_text Fixtures.number_text Fixtures.a_one
                                ["a"; "toString"] (mkWorld 3 [])).
  reflexivity.
Defined.

Lemma throwIfMissing_falsy_witness :
  exists missing,
    In "count" missing /\
    throwIfMissing Fixtures.stack_text Fixtures.number_text
      Fixtures.zero_count ["count"] Fixtures.start
    = (Throw (invalid_request_error Fixtures.stack_text 0
                ("Missing required fields: " ++ String.concat ", " missing)),
       mkWorld 1 []).
Proof.
  apply (throwIfMissing_falsy Fixtures.stack_text Fixtures.number_text
           Fixtures.zero_count ["count"] "count" (VNumber 0) Fixtures.start);
    [now left | reflexivity | reflexivity].
Defined.

Section GetDataFurther.

Variable stack_trace : nat -> string.
Variable number_text : Z -> string.

Local Abbreviation throwIfMissing := (throwIfMissing stack_trace number_text).
Local Abbreviation getData := (getData stack_trace number_text).
Local Abbreviation asError := (asError stack_trace number_text).
Local Abbreviation invalid_request_error := (invalid_request_error stack_trace).
Local Abbreviation new_InvalidRequestError :=
  (new_InvalidRequestError stack_trace number_text).

Lemma isError_invalid_request_error a m :
  isError (invalid_request_error a m) = true.
Proof. reflexivity. Qed.

(** X6.  When reading the body of the request raises, [getData] raises an
    [InvalidRequestError] with the message 'Invalid request body': what
    the read raised is dropped, and the validator has no part in the
    outcome. *)
Theorem getData_unreadable_body {T} req (validator : value -> M T) v w w1 :
  bodyJson req w = (Throw v, w1) ->
  getData req validator w
  = (Throw (invalid_request_error (next w1) "Invalid request body"),
     allocated w1) /\
  instanceof (invalid_request_error (next w1) "Invalid request body")
             InvalidRequestErrorPrototype = true.
Proof.
  intros Eb. split; [|reflexivity].
  now apply getData_body_raises with v.
Qed.

(** X7.  When the body is read and the validator returns, [getData]
    returns what the validator returned and leaves the world as the
    validator left it. *)
Theorem getData_returns_validated {T} req (validator : value -> M T)
        body t w w1 w2 :
  bodyJson req w = (Normal body, w1) ->
  validator body w1 = (Normal t, w2) ->
  getData req validator w = (Normal t, w2).
Proof. apply getData_validator_returns. Qed.

(** X8.  When the validator raises a primitive value, an error-like
    value, or an object with a plain message and a constructor, [getData]
    raises an [InvalidRequestError] instead, a new object: its message is
    the message of an error-like value, the message [asError] gives any
    other value; the raised value and its kind are dropped. *)
Theorem getData_rewraps {T} req (validator : value -> M T) body v w w1 w2 :
  bodyJson req w = (Normal body, w1) ->
  validator body w1 = (Throw v, w2) ->
  normalizable number_text v = true ->
  exists m w3,
    getData req validator w
    = (Throw (invalid_request_error (next w3) m), allocated w3) /\
    (isError v = true -> get v "message" = VString m /\ w3 = w2) /\
    (isError v = false ->
     m = expected_message number_text v /\ w3 = allocated w2).
Proof.
  intros Eb Ev Hn. destruct (isError v) eqn:He.
  - destruct (is_string_inv _ (isError_message _ He)) as (m & Hm).
    exists m, w2. repeat split; try discriminate; trivial.
    apply getData_validator_raises with body v v w1 w2; trivial.
    now apply asError_error_like.
  - exists (expected_message number_text v), (allocated w2).
    repeat split; try discriminate.
    unfold normalizable in Hn. rewrite He, orb_false_r in Hn.
    unfold expected_message.
    destruct (is_primitive v) eqn:Hp; cbn [orb] in Hn.
    + rewrite (is_primitive_not_object _ Hp).
      apply getData_validator_raises
        with (body := body) (v := v) (w1 := w1) (w2 := w2)
             (e := normalized_error stack_trace (next w2)
                     (coerced number_text v) (VString (typeof v)));
        trivial.
      now apply asError_primitive.
    + destruct (isObject v) eqn:Ho; try discriminate. cbn [andb] in Hn.
      destruct (plain_message number_text v) as [s|] eqn:Hs;
        try discriminate.
      destruct (constructor_name v) as [n|] eqn:Hc; try discriminate.
      apply getData_validator_raises
        with (body := body) (v := v) (w1 := w1) (w2 := w2)
             (e := normalized_error stack_trace (next w2) s
                     (if truthy n then n else VString (typeof v)));
        trivial.
      now apply asError_plain_object.
Qed.

(** X9.  [getData] with a validator that checks required keys with
    [throwIfMissing] and returns the body, on a body that is an object:
    the body comes back when no key is missing; otherwise [getData] raises
    a second [InvalidRequestError] with the very message of the first,
    'Missing required fields: ...'. *)
Theorem getData_throwIfMissing req keys body w w1 :
  bodyJson req w = (Normal body, w1) ->
  isObject body = true ->
  getData req (fun b => throwIfMissing b keys ;;; ret b) w =
  match filter (is_missing body) keys with
  | [] => (Normal body, w1)
  | missing =>
      (Throw (invalid_request_error (S (next w1))
                ("Missing required fields: " ++ String.concat ", " missing)),
       allocated (allocated w1))
  end.
Proof.
  intros Eb Ho.
  assert (is_primitive body = false) as Hp by now destruct body.
  destruct (filter (is_missing body) keys) as [|k rest] eqn:F.
  - apply getData_validator_returns with body w1; [exact Eb|].
    unfold bind. now rewrite throwIfMissing_filter, F.
  - change (S (next w1)) with (next (allocated w1)).
    apply getData_validator_raises
      with (body := body) (w1 := w1) (w2 := allocated w1)
           (v := invalid_request_error (next w1)
                   ("Missing required fields: "
                    ++ String.concat ", " (k :: rest)))
           (e := invalid_request_error (next w1)
                   ("Missing required fields: "
                    ++ String.concat ", " (k :: rest)));
      trivial.
    unfold bind. now rewrite throwIfMissing_filter, F.
Qed.

(** X10.  Whatever message it is given, an [InvalidRequestError] that the
    constructor returns is an instance of [InvalidRequestError] and of
    [Error], is named 'InvalidRequestError', has a string message, and is
    error-like: [asError] returns it as it is. *)
Theorem new_InvalidRequestError_error_like message w e w1 :
  new_InvalidRequestError message w = (Normal e, w1) ->
  instanceof e InvalidRequestErrorPrototype = true /\
  instanceof e ErrorPrototype = true /\
  get e "name" = VString "InvalidRequestError" /\
  is_string (get e "message") = true /\
  isError e = true /\
  forall w2, asError e w2 = (Normal e, w2).
Proof.
  intros E. apply bind_inv in E as (a & wa & _ & E).
  apply bind_inv in E as (m & wm & _ & E).
  injection E as <- <-.
  repeat split.
Qed.

End GetDataFurther.

Lemma getData_unreadable_body_witness :
  getData Fixtures.stack_text Fixtures.number_text
          (Fixtures.request "POST" "/items" (throw (VString "Unexpected end")))
          (fun body => ret body) Fixtures.start
  = (Throw (invalid_request_error Fixtures.stack_text 0
              "Invalid request body"),
     mkWorld 1 []) /\
  instanceof (invalid_request_error Fixtures.stack_text 0
                "Invalid request body")
             InvalidRequestErrorPrototype = true.
Proof.
  apply (getData_unreadable_body Fixtures.stack_text Fixtures.number_text
           (Fixtures.request "POST" "/items"
                             (throw (VString "Unexpected end")))
           (fun body => ret body) (VString "Unexpected end")
           Fixtures.start Fixtures.start).
  reflexivity.
Defined.

Lemma getData_returns_validated_witness :
  getData Fixtures.stack_text Fixtures.number_text
          (Fixtures.request "POST" "/items" (ret Fixtures.a_one))
          (fun body => ret (get body "a")) Fixtures.start
  = (Normal (VNumber 1), Fixtures.start).
Proof.
  apply (getData_returns_validated Fixtures.stack_text Fixtures.number_text
           (Fixtures.request "POST" "/items" (ret Fixtures.a_one))
           (fun body => ret (get body "a")) Fixtures.a_one (VNumber 1)
           Fixtures.start Fixtures.start);
    reflexivity.
Defined.

Lemma getData_rewraps_witness :
  exists m w3,
    getData Fixtures.stack_text Fixtures.number_text
            (Fixtures.request "POST" "/items" (ret Fixtures.a_one))
            (fun _ => throw (A := value) (VString "bad shape"))
            Fixtures.start
    = (Throw (invalid_request_error Fixtures.stack_text (next w3) m),
       allocated w3) /\
    (isError (VString "bad shape") = true ->
     get (VString "bad shape") "message" = VString m /\ w3 = Fixtures.start) /\
    (isError (VString "bad shape") = false ->
     m = expected_message Fixtures.number_text (VString "bad shape") /\
     w3 = allocated Fixtures.start).
Proof.
  apply (getData_rewraps Fixtures.stack_text Fixtures.number_text
           (Fixtures.request "POST" "/items" (ret Fixtures.a_one))
           (fun _ => throw (A := value) (VString "bad shape"))
           Fixtures.a_one (VString "bad shape")
           Fixtures.start Fixtures.start Fixtures.start);
    reflexivity.
Defined.

Lemma getData_throwIfMissing_witness :
  getData Fixtures.stack_text Fixtures.number_text
          (Fixtures.request "POST" "/items" (ret Fixtures.a_one))
          (fun b => throwIfMissing Fixtures.stack_text Fixtures.number_text b ["a"; "b"] ;;; ret b)
          Fixtures.start
  = (Throw (invalid_request_error Fixtures.stack_text 1
              "Missing required fields: b"),
     mkWorld 2 []).
Proof.
  apply (getData_throwIfMissing Fixtures.stack_text Fixtures.number_text
           (Fixtures.request "POST" "/items" (ret Fixtures.a_one))
           ["a"; "b"] Fixtures.a_one Fixtures.start Fixtures.start);
    reflexivity.
Defined.

Lemma new_InvalidRequestError_error_like_witness :
  instanceof (invalid_request_error Fixtures.stack_text 0 "42")
             InvalidRequestErrorPrototype = true /\
  instanceof (invalid_request_error Fixtures.stack_text 0 "42")
             ErrorPrototype = true /\
  get (invalid_request_error Fixtures.stack_text 0 "42") "name"
  = VString "InvalidRequestError" /\
  is_string (get (invalid_request_error Fixtures.stack_text 0 "42") "message")
  = true /\
  isError (invalid_request_error Fixtures.stack_text 0 "42") = true /\
  forall w2,
    asError Fixtures.stack_text Fixtures.number_text
            (invalid_request_error Fixtures.stack_text 0 "42") w2
    = (Normal (invalid_request_error Fixtures.stack_text 0 "42"), w2).
Proof.
  apply (new_InvalidRequestError_error_like Fixtures.stack_text Fixtures.number_text (VNumber 42)
           Fixtures.start _ (mkWorld 1 [])).
  reflexivity.
Defined.

(** ** Error normalisation *)

Section ErrorFurther.

Variable stack_trace : nat -> string.
Variable number_text : Z -> string.

Local Abbreviation asError := (asError stack_trace number_text).
Local Abbreviation getObjectMessage := (getObjectMessage stack_trace number_text).

Lemma isError_needs_message v :
  is_string (get v "message") = false -> isError v = false.
Proof.
  intros E. unfold isError. rewrite !typeof_string, E.
  now rewrite andb_false_r.
Qed.

(** X11.  For an object with no string message whose [toString] is
    [Object.prototype.toString], [getObjectMessage] gives the JSON text of
    the object, [undefined] when JSON gives that, and when
    [JSON.stringify] throws, as on a cyclic object, it drops what was
    thrown and does as [String(obj)] does.  On an object with no
    [Symbol.toPrimitive] that is what [Object.prototype.toString] gives it:
    '[object Object]' on an ordinary object. *)
Theorem getObjectMessage_json_fallback obj w :
  isObject obj = true ->
  is_string (get obj "message") = false ->
  is_Object_prototype_toString (get obj "toString") = true ->
  getObjectMessage obj w =
  match json_of obj with
  | JsonText s => (Normal (VString s), w)
  | JsonUndefined => (Normal VUndefined, w)
  | JsonThrows _ =>
      (s <- String_ stack_trace number_text obj ;; ret (VString s)) w
  end /\
  forall x tagged,
    json_of obj = JsonThrows x ->
    get obj Symbol_toPrimitive = VUndefined ->
    as_function (get obj "toString")
    = Some (ObjectPrototypeToString, Returns (VString tagged)) ->
    getObjectMessage obj w = (Normal (VString tagged), w).
Proof.
  intros Ho Hm Ht. destruct (isObject_inv _ Ho) as (a & ch & ps & j & ->).
  assert (getObjectMessage (VObject a ch ps j) w =
          match j with
          | JsonText s => (Normal (VString s), w)
          | JsonUndefined => (Normal VUndefined, w)
          | JsonThrows _ =>
              (s <- String_ stack_trace number_text (VObject a ch ps j) ;;
               ret (VString s)) w
          end) as E.
  { unfold getObjectMessage. rewrite typeof_string, Hm, Ht. cbn [negb].
    destruct j as [t| |x]; reflexivity. }
  split; [exact E|].
  intros x tagged Hj Hp Hf. rewrite E. cbn [json_of] in Hj. rewrite Hj.
  unfold bind, String_.
  now rewrite (to_string_default stack_trace number_text _ _ _ _ _ _ Hp Hf).
Qed.

(** X12.  What a [toString] of its own raises is not caught: for an object
    with no string message whose [toString] is a user function that
    raises, [asError] raises that same value, before it allocates
    anything. *)
Theorem asError_throwing_toString obj id nm src x w :
  isObject obj = true ->
  is_string (get obj "message") = false ->
  get obj "toString" = VFunction (UserFunction id) nm src (Throws x) ->
  asError obj w = (Throw x, w).
Proof.
  intros Ho Hm Ht. unfold asError.
  rewrite (isError_needs_message _ Hm), Ho.
  apply bind_throw. unfold getObjectMessage.
  now rewrite typeof_string, Hm, Ht.
Qed.

(** X13.  For an object with no string message whose [toString] is not a
    function, as on an object with no prototype, [asError] raises the
    [TypeError] of the engine, which is not an [InvalidRequestError]. *)
Theorem asError_no_callable_toString obj w :
  isObject obj = true ->
  is_string (get obj "message") = false ->
  callable (get obj "toString") = false ->
  exists e,
    asError obj w = (Throw e, allocated w) /\
    instanceof e TypeErrorPrototype = true /\
    instanceof e InvalidRequestErrorPrototype = false.
Proof.
  intros Ho Hm Ht.
  exists (error_object stack_trace (next w)
            [TypeErrorPrototype; ErrorPrototype; ObjectPrototype]
            TypeError_constructor "TypeError" "obj.toString is not a function").
  split; [|split; reflexivity].
  unfold asError. rewrite (isError_needs_message _ Hm), Ho.
  apply bind_throw. unfold getObjectMessage. rewrite typeof_string, Hm.
  destruct (get obj "toString"); try discriminate; reflexivity.
Qed.

(** X14.  For an object that is not error-like and whose constructor is
    [undefined] or [null], [asError] raises the [TypeError] of the engine
    even when the message can be had: it has built the error by then, and
    reading the name of the constructor fails. *)
Theorem asError_no_constructor obj s w :
  isObject obj = true ->
  isError obj = false ->
  plain_message number_text obj = Some s ->
  constructor_name obj = None ->
  exists e,
    asError obj w = (Throw e, allocated (allocated w)) /\
    instanceof e TypeErrorPrototype = true /\
    instanceof e InvalidRequestErrorPrototype = false.
Proof.
  intros Ho He Hp Hc.
  destruct (getObjectMessage_plain stack_trace number_text _ _ w Ho Hp)
    as (m & Hm & Hn).
  unfold asError. rewrite He, Ho.
  rewrite (bind_normal _ _ _ _ _ Hm).
  rewrite (bind_normal _ _ _ _ _ Hn).
  unfold constructor_name in Hc.
  destruct (get obj "constructor"); try discriminate;
    eexists; (split; [reflexivity|split; reflexivity]).
Qed.

(** X15.  Whatever [asError] returns is an object with a string message;
    when the value given was not error-like it is an instance of [Error]
    with a string stack. *)
Theorem asError_returns_error v w e w1 :
  asError v w = (Normal e, w1) ->
  isObject e = true /\
  is_string (get e "message") = true /\
  (isError v = false ->
   instanceof e ErrorPrototype = true /\
   is_string (get e "stack") = true).
Proof.
  intros E.
  destruct (asError_result stack_trace number_text _ _ _ _ E)
    as [(He & -> & _) | (He & a & m & n & -> & _)].
  - split; [now apply isError_isObject|].
    split; [now apply isError_message|]. congruence.
  - repeat split.
Qed.

End ErrorFurther.

Lemma getObjectMessage_json_fallback_witness :
  getObjectMessage Fixtures.stack_text Fixtures.number_text Fixtures.cyclic_object Fixtures.start
  = (Normal (VString "[object Object]"), Fixtures.start).
Proof.
  apply (getObjectMessage_json_fallback Fixtures.stack_text Fixtures.number_text
           Fixtures.cyclic_object Fixtures.start);
    reflexivity.
Defined.

Lemma asError_no_callable_toString_witness :
  exists e,
    asError Fixtures.stack_text Fixtures.number_text Fixtures.null_prototype_object Fixtures.start
    = (Throw e, mkWorld 1 []) /\
    instanceof e TypeErrorPrototype = true /\
    instanceof e InvalidRequestErrorPrototype = false.
Proof.
  apply (asError_no_callable_toString Fixtures.stack_text Fixtures.number_text
           Fixtures.null_prototype_object Fixtures.start);
    reflexivity.
Defined.

Lemma asError_returns_error_witness :
  isObject (normalized_error Fixtures.stack_text 0 "42" (VString "number"))
  = true /\
  is_string (get (normalized_error Fixtures.stack_text 0 "42"
                                   (VString "number")) "message") = true /\
  (isError (VNumber 42) = false ->
   instanceof (normalized_error Fixtures.stack_text 0 "42" (VString "number"))
              ErrorPrototype = true /\
   is_string (get (normalized_error Fixtures.stack_text 0 "42"
                                    (VString "number")) "stack") = true).
Proof.
  apply (asError_returns_error Fixtures.stack_text Fixtures.number_text (VNumber 42) Fixtures.start
           _ (mkWorld 1 [])).
  reflexivity.
Defined.

Lemma asError_throwing_toString_witness :
  asError Fixtures.stack_text Fixtures.number_text Fixtures.hostile Fixtures.start
  = (Throw (VString "nope"), Fixtures.start).
Proof.
  apply (asError_throwing_toString Fixtures.stack_text Fixtures.number_text Fixtures.hostile
           12%nat "toString" "toString() { throw 'nope' }" (VString "nope")
           Fixtures.start);
    reflexivity.
Defined.

Lemma asError_no_constructor_witness :
  exists e,
    asError Fixtures.stack_text Fixtures.number_text Fixtures.bare_message Fixtures.start
    = (Throw e, mkWorld 2 []) /\
    instanceof e TypeErrorPrototype = true /\
    instanceof e InvalidRequestErrorPrototype = false.
Proof.
  apply (asError_no_constructor Fixtures.stack_text Fixtures.number_text Fixtures.bare_message
           "boom" Fixtures.start);
    reflexivity.
Defined.

(** ** Validation inside a handler *)

Arguments def {Context} r.

Section HandlerValidation.

Context {Context : Type} {RouteRecognizer : Type}.
Variable recognize :
  RouteRecognizer -> string -> option (list (RecognizeResult Context)).
Variable stack_trace : nat -> string.
Variable number_text : Z -> string.

Local Abbreviation match_ := (match_ recognize).
Local Abbreviation handle := (handle recognize).
Local Abbreviation throwIfMissing := (throwIfMissing stack_trace number_text).
Local Abbreviation getData := (getData stack_trace number_text).
Local Abbreviation invalid_request_error := (invalid_request_error stack_trace).




End HandlerValidation.



